(** * The ESP32 rover web controller ([app.js]), embedded in Rocq

    [app.js] declares one class, [RoverController].  Its instance fields become a
    record, its methods become functions over that record and over a [World]
    that stands for everything outside the object: the BLE transport, the
    console and the joystick knob.

    Conventions.
    - A JavaScript Number is an IEEE-754 binary64 value: Rocq's primitive
      [float].  [+], [-], [*], [/], [Math.sqrt], [<], [>=] are the primitive
      operations.  [Math.atan2], [Math.cos] and [Math.sin] are left to the host
      by ECMAScript ("implementation-approximated"); they are parameters of
      [handleJoystickMove].
    - [Date.now()] is an integer number of milliseconds: a [Z] handed to the
      method that reads the clock.
    - A command is a [string]; [TextEncoder.encode] of an ASCII string is the
      list of its bytes.
    - What the transport answers to [characteristic.writeValue] is an input
      ([resolved : bool]); what discovery and the GATT handshake answer is a
      [ConnectOutcome].
    - Every handler runs to completion before the next one starts: an [await]
      is answered by the environment within the handler.
    - DOM updates (labels, hidden classes, disabled buttons), vibration and the
      one-second display timer are not modelled, except the knob's transform. *)

From Stdlib Require Import ZArith List String Ascii Bool Lia.
From Stdlib Require Import Floats DecimalString.
Import ListNotations.

Local Open Scope string_scope.
Local Open Scope list_scope.
Local Open Scope Z_scope.

(** ** JavaScript numbers *)

Module JS.

(** The Number value of a mathematical integer (exact for [|z| <= 2^53]). *)
Definition Number_of_Z (z : Z) : float :=
  match z with
  | Zneg p => PrimFloat.opp (PrimFloat.of_uint63 (Uint63.of_Z (Zpos p)))
  | _ => PrimFloat.of_uint63 (Uint63.of_Z z)
  end.

(** [Math.PI], the Number closest to pi. *)
Definition Math_PI : float := 0x1.921fb54442d18p+1%float.

Definition Math_sqrt (x : float) : float := PrimFloat.sqrt x.

(** The result of [Math.round]: an integer, or the argument itself when it
    is NaN or an infinity. *)
Inductive Rounded : Type :=
| Int (n : Z)
| NaN
| Infinity (negative : bool).

(** [Math.round x]: the integer nearest to [x], the larger one on a tie,
    that is [floor (x + 1/2)] computed exactly on [x = ±m * 2^e]. *)
Definition Math_round (x : float) : Rounded :=
  match Prim2SF x with
  | S754_zero _ => Int 0
  | S754_finite s m e =>
      let n := if s then Zneg m else Zpos m in
      Int (if 0 <=? e then n * 2 ^ e
           else (2 * n + 2 ^ (- e)) / 2 ^ (1 - e))
  | S754_nan => NaN
  | S754_infinity s => Infinity s
  end.

(** [Number::toString] on such a value (decimal digits below 10^21). *)
Definition Number_toString (r : Rounded) : string :=
  match r with
  | Int n => NilZero.string_of_int (Z.to_int n)
  | NaN => "NaN"
  | Infinity false => "Infinity"
  | Infinity true => "-Infinity"
  end.

(** [new TextEncoder().encode(s)] for a string kept as its UTF-8 bytes. *)
Definition TextEncoder_encode (s : string) : list Byte.byte :=
  list_byte_of_string s.

(** How an evaluation ends: normally, or by a thrown error (a rejected
    promise, for an [async] method). *)
Inductive Completion : Type :=
| Normal
| Throw.

End JS.
Import JS.

(** ** The controller's fields (constructor, lines 5-32) *)

Record BluetoothDevice : Type := { device_name : string }.
Record Characteristic : Type := { characteristic_uuid : string }.

Definition SERVICE_UUID : string := "0000ffe0-0000-1000-8000-00805f9b34fb".
Definition CHARACTERISTIC_UUID : string := "0000ffe1-0000-1000-8000-00805f9b34fb".

Record RoverController : Type := {
  (* Connection state *)
  device : option BluetoothDevice;
  characteristic : option Characteristic;
  isConnected : bool;
  (* Control state *)
  currentSpeed : Z;
  currentDirection : string;
  commandCount : Z;
  connectionStartTime : option Z;
  (* Joystick state *)
  joystickActive : bool;
  joystickCenter : float * float;
  maxRadius : float;
  (* Command debouncing *)
  lastCommand : string;
  lastCommandTime : Z;
  commandDelay : Z
}.

(** The field values the constructor assigns, before [init()]. *)
Definition constructor : RoverController := {|
  device := None;
  characteristic := None;
  isConnected := false;
  currentSpeed := 50;
  currentDirection := "STOP";
  commandCount := 0;
  connectionStartTime := None;
  joystickActive := false;
  joystickCenter := (0%float, 0%float);
  maxRadius := 80%float;
  lastCommand := "";
  lastCommandTime := 0;
  commandDelay := 100
|}.

(** Assignments [this.f = v]. *)
Definition set_device v (s : RoverController) : RoverController :=
  {| device := v; characteristic := characteristic s; isConnected := isConnected s;
     currentSpeed := currentSpeed s; currentDirection := currentDirection s;
     commandCount := commandCount s; connectionStartTime := connectionStartTime s;
     joystickActive := joystickActive s; joystickCenter := joystickCenter s;
     maxRadius := maxRadius s; lastCommand := lastCommand s;
     lastCommandTime := lastCommandTime s; commandDelay := commandDelay s |}.

Definition set_characteristic v (s : RoverController) : RoverController :=
  {| device := device s; characteristic := v; isConnected := isConnected s;
     currentSpeed := currentSpeed s; currentDirection := currentDirection s;
     commandCount := commandCount s; connectionStartTime := connectionStartTime s;
     joystickActive := joystickActive s; joystickCenter := joystickCenter s;
     maxRadius := maxRadius s; lastCommand := lastCommand s;
     lastCommandTime := lastCommandTime s; commandDelay := commandDelay s |}.

Definition set_isConnected v (s : RoverController) : RoverController :=
  {| device := device s; characteristic := characteristic s; isConnected := v;
     currentSpeed := currentSpeed s; currentDirection := currentDirection s;
     commandCount := commandCount s; connectionStartTime := connectionStartTime s;
     joystickActive := joystickActive s; joystickCenter := joystickCenter s;
     maxRadius := maxRadius s; lastCommand := lastCommand s;
     lastCommandTime := lastCommandTime s; commandDelay := commandDelay s |}.

Definition set_currentSpeed v (s : RoverController) : RoverController :=
  {| device := device s; characteristic := characteristic s; isConnected := isConnected s;
     currentSpeed := v; currentDirection := currentDirection s;
     commandCount := commandCount s; connectionStartTime := connectionStartTime s;
     joystickActive := joystickActive s; joystickCenter := joystickCenter s;
     maxRadius := maxRadius s; lastCommand := lastCommand s;
     lastCommandTime := lastCommandTime s; commandDelay := commandDelay s |}.

Definition set_currentDirection v (s : RoverController) : RoverController :=
  {| device := device s; characteristic := characteristic s; isConnected := isConnected s;
     currentSpeed := currentSpeed s; currentDirection := v;
     commandCount := commandCount s; connectionStartTime := connectionStartTime s;
     joystickActive := joystickActive s; joystickCenter := joystickCenter s;
     maxRadius := maxRadius s; lastCommand := lastCommand s;
     lastCommandTime := lastCommandTime s; commandDelay := commandDelay s |}.

Definition set_commandCount v (s : RoverController) : RoverController :=
  {| device := device s; characteristic := characteristic s; isConnected := isConnected s;
     currentSpeed := currentSpeed s; currentDirection := currentDirection s;
     commandCount := v; connectionStartTime := connectionStartTime s;
     joystickActive := joystickActive s; joystickCenter := joystickCenter s;
     maxRadius := maxRadius s; lastCommand := lastCommand s;
     lastCommandTime := lastCommandTime s; commandDelay := commandDelay s |}.

Definition set_connectionStartTime v (s : RoverController) : RoverController :=
  {| device := device s; characteristic := characteristic s; isConnected := isConnected s;
     currentSpeed := currentSpeed s; currentDirection := currentDirection s;
     commandCount := commandCount s; connectionStartTime := v;
     joystickActive := joystickActive s; joystickCenter := joystickCenter s;
     maxRadius := maxRadius s; lastCommand := lastCommand s;
     lastCommandTime := lastCommandTime s; commandDelay := commandDelay s |}.

Definition set_joystickActive v (s : RoverController) : RoverController :=
  {| device := device s; characteristic := characteristic s; isConnected := isConnected s;
     currentSpeed := currentSpeed s; currentDirection := currentDirection s;
     commandCount := commandCount s; connectionStartTime := connectionStartTime s;
     joystickActive := v; joystickCenter := joystickCenter s;
     maxRadius := maxRadius s; lastCommand := lastCommand s;
     lastCommandTime := lastCommandTime s; commandDelay := commandDelay s |}.

Definition set_joystickCenter v (s : RoverController) : RoverController :=
  {| device := device s; characteristic := characteristic s; isConnected := isConnected s;
     currentSpeed := currentSpeed s; currentDirection := currentDirection s;
     commandCount := commandCount s; connectionStartTime := connectionStartTime s;
     joystickActive := joystickActive s; joystickCenter := v;
     maxRadius := maxRadius s; lastCommand := lastCommand s;
     lastCommandTime := lastCommandTime s; commandDelay := commandDelay s |}.

Definition set_maxRadius v (s : RoverController) : RoverController :=
  {| device := device s; characteristic := characteristic s; isConnected := isConnected s;
     currentSpeed := currentSpeed s; currentDirection := currentDirection s;
     commandCount := commandCount s; connectionStartTime := connectionStartTime s;
     joystickActive := joystickActive s; joystickCenter := joystickCenter s;
     maxRadius := v; lastCommand := lastCommand s;
     lastCommandTime := lastCommandTime s; commandDelay := commandDelay s |}.

Definition set_lastCommand v (s : RoverController) : RoverController :=
  {| device := device s; characteristic := characteristic s; isConnected := isConnected s;
     currentSpeed := currentSpeed s; currentDirection := currentDirection s;
     commandCount := commandCount s; connectionStartTime := connectionStartTime s;
     joystickActive := joystickActive s; joystickCenter := joystickCenter s;
     maxRadius := maxRadius s; lastCommand := v;
     lastCommandTime := lastCommandTime s; commandDelay := commandDelay s |}.

Definition set_lastCommandTime v (s : RoverController) : RoverController :=
  {| device := device s; characteristic := characteristic s; isConnected := isConnected s;
     currentSpeed := currentSpeed s; currentDirection := currentDirection s;
     commandCount := commandCount s; connectionStartTime := connectionStartTime s;
     joystickActive := joystickActive s; joystickCenter := joystickCenter s;
     maxRadius := maxRadius s; lastCommand := lastCommand s;
     lastCommandTime := v; commandDelay := commandDelay s |}.

(** ** The world outside the controller *)

(** What the controller does to its environment, in the order it happens. *)
Inductive Effect : Type :=
| writeValue (value : list Byte.byte) (resolved : bool)
    (* characteristic.writeValue(value), and whether the promise resolved *)
| gatt_disconnect                      (* device.gatt.disconnect() *)
| console_warn_NotConnected            (* sendCommand, line 265 *)
| console_log_Sent (cmd : string) (count : Z)  (* sendCommand, line 274 *)
| console_error_SendFailed             (* sendCommand, line 286 *)
| console_log_DeviceDisconnected       (* gattserverdisconnected listener, line 238 *)
| console_error_ConnectionFailed       (* connect, line 249 *)
| alert_ConnectionFailed.              (* connect, line 250 *)

Record DOMRect : Type := { left : float; top : float; width : float; height : float }.

Record World : Type := {
  effects : list Effect;               (* oldest first *)
  gatt_connected : bool;               (* this.device.gatt.connected *)
  joystick_transform : float * float   (* the knob's translate(newX, newY) *)
}.

Definition initial_world : World :=
  {| effects := []; gatt_connected := false;
     joystick_transform := (0%float, 0%float) |}.

Definition emit (e : Effect) (w : World) : World :=
  {| effects := effects w ++ [e]; gatt_connected := gatt_connected w;
     joystick_transform := joystick_transform w |}.

Definition set_gatt_connected (b : bool) (w : World) : World :=
  {| effects := effects w; gatt_connected := b;
     joystick_transform := joystick_transform w |}.

Definition set_joystick_transform (t : float * float) (w : World) : World :=
  {| effects := effects w; gatt_connected := gatt_connected w;
     joystick_transform := t |}.

(** The payloads handed to [writeValue], and those whose write resolved. *)
Fixpoint writeAttempts (l : list Effect) : list (list Byte.byte) :=
  match l with
  | [] => []
  | writeValue v _ :: l' => v :: writeAttempts l'
  | _ :: l' => writeAttempts l'
  end.

Fixpoint transmitted (l : list Effect) : list (list Byte.byte) :=
  match l with
  | [] => []
  | writeValue v true :: l' => v :: transmitted l'
  | _ :: l' => transmitted l'
  end.

(** [await this.characteristic.writeValue(value)]: rejects when the transport
    does. *)
Definition characteristic_writeValue (value : list Byte.byte) (resolved : bool)
    (w : World) : Completion * World :=
  (if resolved then Normal else Throw, emit (writeValue value resolved) w).

Definition device_gatt_disconnect (w : World) : World :=
  set_gatt_connected false (emit gatt_disconnect w).

(** ** Methods of [RoverController] *)

Definition System : Type := RoverController * World.

(** [dirMap[cmd]] of [updateDirection] (lines 298-304), the [text] member; the
    emoji only goes to the page.  [cmd] is a command of the protocol, never
    the name of a member inherited from [Object.prototype]. *)
Definition dirMap (cmd : string) : option string :=
  if String.eqb cmd "F" then Some "Forward"
  else if String.eqb cmd "B" then Some "Backward"
  else if String.eqb cmd "L" then Some "Left"
  else if String.eqb cmd "R" then Some "Right"
  else if String.eqb cmd "S" then Some "Stopped"
  else None.

(** [updateDirection(cmd)] (lines 297-310): [dirMap[cmd] || dirMap['S']]. *)
Definition updateDirection (cmd : string) (s : RoverController) : RoverController :=
  let dir := match dirMap cmd with
             | Some d => d
             | None => "Stopped"
             end in
  set_currentDirection dir s.

(** [!this.isConnected || !this.characteristic] (line 264). *)
Definition notConnected (s : RoverController) : bool :=
  negb (isConnected s) ||
  match characteristic s with
  | None => true
  | Some _ => false
  end.

(** [async sendCommand(cmd)] (lines 263-288). *)
Definition sendCommand (s : RoverController) (w : World) (cmd : string)
    (resolved : bool) : Completion * System :=
  if notConnected s then
    (Normal, (s, emit console_warn_NotConnected w))
  else
    (* try *)
    match characteristic_writeValue (TextEncoder_encode cmd) resolved w with
    | (Normal, w1) =>
        let s1 := set_commandCount (commandCount s + 1) s in
        let w2 := emit (console_log_Sent cmd (commandCount s1)) w1 in
        (Normal, (updateDirection cmd s1, w2))
    | (Throw, w1) =>
        (* catch (error) *)
        (Normal, (s, emit console_error_SendFailed w1))
    end.

(** [emergencyStop()] (lines 290-295); the promise of [sendCommand] is
    dropped. *)
Definition emergencyStop (s : RoverController) (w : World) (resolved : bool)
    : System :=
  snd (sendCommand s w "S" resolved).

(** [resetJoystick(joystick)] (lines 186-189). *)
Definition resetJoystick (s : RoverController) (w : World) (resolved : bool)
    : System :=
  snd (sendCommand s (set_joystick_transform (0%float, 0%float) w) "S" resolved).

(** The condition of [sendCommandThrottled] (line 193). *)
Definition shouldSend (s : RoverController) (cmd : string) (now : Z) : bool :=
  negb (String.eqb cmd (lastCommand s)) ||
  (commandDelay s <? now - lastCommandTime s).

(** [sendCommandThrottled(cmd)] (lines 191-198); [now] is [Date.now()]. *)
Definition sendCommandThrottled (s : RoverController) (w : World) (cmd : string)
    (now : Z) (resolved : bool) : System :=
  if shouldSend s cmd now then
    let '(s1, w1) := snd (sendCommand s w cmd resolved) in
    (set_lastCommandTime now (set_lastCommand cmd s1), w1)
  else (s, w).

(** [onConnected()] (lines 312-326) only touches the page and starts the
    display timer. *)
Definition onConnected (s : RoverController) : RoverController := s.

(** [onDisconnected()] (lines 328-348). *)
Definition onDisconnected (s : RoverController) : RoverController :=
  let s1 := set_isConnected false s in
  let s2 := set_characteristic None s1 in
  let s3 := set_device None s2 in
  (* Reset state *)
  let s4 := updateDirection "S" s3 in
  set_commandCount 0 s4.

(** How far [connect()] gets: each [await] of lines 206-230 may reject. *)
Inductive ConnectOutcome : Type :=
| requestDevice_rejected
| gatt_connect_rejected (d : BluetoothDevice)
| getPrimaryService_rejected (d : BluetoothDevice)
| getCharacteristic_rejected (d : BluetoothDevice)
| startNotifications_rejected (d : BluetoothDevice) (c : Characteristic)
| handshake_done (d : BluetoothDevice) (c : Characteristic).

(** The [catch] block of [connect()] (lines 248-252). *)
Definition connect_catch (w : World) : World :=
  emit alert_ConnectionFailed (emit console_error_ConnectionFailed w).

(** [async connect()] (lines 200-253); [now] is the [Date.now()] of line 243.
    The fields assigned before a rejection keep their new values. *)
Definition connect (s : RoverController) (w : World) (o : ConnectOutcome)
    (now : Z) : Completion * System :=
  match o with
  | requestDevice_rejected =>
      (Normal, (s, connect_catch w))
  | gatt_connect_rejected d =>
      (Normal, (set_device (Some d) s, connect_catch w))
  | getPrimaryService_rejected d
  | getCharacteristic_rejected d =>
      (Normal, (set_device (Some d) s,
                connect_catch (set_gatt_connected true w)))
  | startNotifications_rejected d c =>
      (Normal, (set_characteristic (Some c) (set_device (Some d) s),
                connect_catch (set_gatt_connected true w)))
  | handshake_done d c =>
      let s1 := set_characteristic (Some c) (set_device (Some d) s) in
      let s2 := set_isConnected true s1 in
      let s3 := set_connectionStartTime (Some now) s2 in
      (Normal, (onConnected s3, set_gatt_connected true w))
  end.

(** [async disconnect()] (lines 255-261). *)
Definition disconnect (s : RoverController) (w : World) (resolved : bool)
    : Completion * System :=
  match device s, gatt_connected w with
  | Some _, true =>
      match sendCommand s w "S" resolved with       (* Stop motors first *)
      | (Throw, sys) => (Throw, sys)
      | (Normal, (s1, w1)) =>
          (Normal, (onDisconnected s1, device_gatt_disconnect w1))
      end
  | _, _ => (Normal, (onDisconnected s, w))
  end.

(** The [gattserverdisconnected] listener (lines 237-240); the link is already
    down when it runs. *)
Definition on_gattserverdisconnected (s : RoverController) (w : World) : System :=
  (onDisconnected s,
   emit console_log_DeviceDisconnected (set_gatt_connected false w)).

(** *** Listeners of [setupEventListeners] (lines 54-90) *)

(** [touchstart] and [click] on an arrow button (lines 61-72);
    [cmd] is [btn.dataset.cmd]. *)
Definition arrowBtn_touchstart (s : RoverController) (w : World) (cmd : string)
    (resolved : bool) : System :=
  snd (sendCommand s w cmd resolved).

Definition arrowBtn_click (s : RoverController) (w : World) (cmd : string)
    (resolved : bool) : System :=
  snd (sendCommand s w cmd resolved).

(** [Math.round((this.currentSpeed / 100) * 255)] (line 82). *)
Definition speedByte (currentSpeed : Z) : Rounded :=
  Math_round (PrimFloat.mul
                (PrimFloat.div (Number_of_Z currentSpeed) 100%float)
                255%float).

(** The template literal of line 83. *)
Definition speedCommand (currentSpeed : Z) : string :=
  String.append "SPEED:" (Number_toString (speedByte currentSpeed)).

(** [input] on the speed slider (lines 76-84); [value] is
    [parseInt(e.target.value)]. *)
Definition speedSlider_input (s : RoverController) (w : World) (value : Z)
    (resolved : bool) : System :=
  let s1 := set_currentSpeed value s in
  snd (sendCommand s1 w (speedCommand (currentSpeed s1)) resolved).

Definition emergencyStop_click (s : RoverController) (w : World)
    (resolved : bool) : System :=
  emergencyStop s w resolved.

(** *** The joystick (lines 92-184) *)

(** [updateCenter] (lines 97-104); [rect] is [base.getBoundingClientRect()]. *)
Definition updateCenter (rect : DOMRect) (s : RoverController) : RoverController :=
  let s1 := set_joystickCenter
              ((left rect + width rect / 2)%float,
               (top rect + height rect / 2)%float) s in
  set_maxRadius (width rect / 2 - 50)%float s1.

(** The ladder of lines 169-183: the command for a displacement of length
    [distance] whose direction is [angle] degrees. *)
Definition threshold : float := 30%float.

Definition joystickCommand (distance angle : float) : string :=
  if (distance <? threshold)%float then "S"
  else if ((-45) <=? angle)%float && (angle <? 45)%float then "R"
  else if (45 <=? angle)%float && (angle <? 135)%float then "B"
  else if ((-135) <=? angle)%float && (angle <? (-45))%float then "F"
  else "L".

Section Joystick.

(** The host's [Math.atan2(y, x)], [Math.cos] and [Math.sin]. *)
Variable Math_atan2 : float -> float -> float.
Variables Math_cos Math_sin : float -> float.

(** Lines 150-152. *)
Definition displacement (s : RoverController) (x y : float) : float * float :=
  ((x - fst (joystickCenter s))%float, (y - snd (joystickCenter s))%float).

Definition distanceOf (d : float * float) : float :=
  Math_sqrt (fst d * fst d + snd d * snd d)%float.

(** Lines 155-162: [(newX, newY)]. *)
Definition clampToRadius (s : RoverController) (d : float * float) : float * float :=
  if (maxRadius s <? distanceOf d)%float then
    let angle := Math_atan2 (snd d) (fst d) in
    ((Math_cos angle * maxRadius s)%float, (Math_sin angle * maxRadius s)%float)
  else d.

(** Line 168. *)
Definition angleDegrees (new : float * float) : float :=
  (Math_atan2 (snd new) (fst new) * (180 / Math_PI))%float.

(** [handleJoystickMove(x, y, joystick)] (lines 149-184). *)
Definition handleJoystickMove (s : RoverController) (w : World) (x y : float)
    (now : Z) (resolved : bool) : System :=
  let d := displacement s x y in
  let distance := distanceOf d in
  let new := clampToRadius s d in
  let w1 := set_joystick_transform new w in
  let angle := angleDegrees new in
  sendCommandThrottled s w1 (joystickCommand distance angle) now resolved.

(** [touchstart] and [mousedown] on the knob (lines 110-114, 131-134). *)
Definition joystick_press (rect : DOMRect) (s : RoverController) : RoverController :=
  updateCenter rect (set_joystickActive true s).

(** [touchmove] and [mousemove] (lines 116-122, 136-139). *)
Definition joystick_move (s : RoverController) (w : World) (x y : float)
    (now : Z) (resolved : bool) : System :=
  if joystickActive s then handleJoystickMove s w x y now resolved
  else (s, w).

End Joystick.

(** [touchend] (lines 124-128) and [mouseup] (lines 141-146). *)
Definition joystick_touchend (s : RoverController) (w : World) (resolved : bool)
    : System :=
  resetJoystick (set_joystickActive false s) w resolved.

Definition document_mouseup (s : RoverController) (w : World) (resolved : bool)
    : System :=
  if joystickActive s then resetJoystick (set_joystickActive false s) w resolved
  else (s, w).

(** [new RoverController()]: the constructor's fields, then [init()], whose
    [setupJoystick] calls [updateCenter] once (line 106). *)
Definition new_RoverController (rect : DOMRect) : RoverController :=
  updateCenter rect constructor.

(** ** States the controller can be in

    Any listener may run next, with any answer of the environment; the
    joystick may move under any host [Math]. *)
Inductive reachable : System -> Prop :=
| reach_new rect :
    reachable (new_RoverController rect, initial_world)
| reach_connect s w o now :
    reachable (s, w) -> reachable (snd (connect s w o now))
| reach_disconnect s w resolved :
    reachable (s, w) -> reachable (snd (disconnect s w resolved))
| reach_gattserverdisconnected s w :
    reachable (s, w) -> reachable (on_gattserverdisconnected s w)
| reach_link_down s w :
    reachable (s, w) -> reachable (s, set_gatt_connected false w)
| reach_arrowBtn_touchstart s w cmd resolved :
    reachable (s, w) -> reachable (arrowBtn_touchstart s w cmd resolved)
| reach_arrowBtn_click s w cmd resolved :
    reachable (s, w) -> reachable (arrowBtn_click s w cmd resolved)
| reach_speedSlider_input s w value resolved :
    reachable (s, w) -> reachable (speedSlider_input s w value resolved)
| reach_emergencyStop_click s w resolved :
    reachable (s, w) -> reachable (emergencyStop_click s w resolved)
| reach_window_resize s w rect :
    reachable (s, w) -> reachable (updateCenter rect s, w)
| reach_joystick_press s w rect :
    reachable (s, w) -> reachable (joystick_press rect s, w)
| reach_joystick_move atan2 cos sin s w x y now resolved :
    reachable (s, w) ->
    reachable (joystick_move atan2 cos sin s w x y now resolved)
| reach_joystick_touchend s w resolved :
    reachable (s, w) -> reachable (joystick_touchend s w resolved)
| reach_document_mouseup s w resolved :
    reachable (s, w) -> reachable (document_mouseup s w resolved).

(** The session is Active: connected, with a characteristic to write to. *)
Definition Active (s : RoverController) : Prop :=
  isConnected s = true /\ characteristic s <> None.

(** The throttle state of the "Command debouncing" fields. *)
Definition throttleState (s : RoverController) : string * Z :=
  (lastCommand s, lastCommandTime s).

(** The four sectors of the direction ladder, in degrees. *)
Definition RightSector (a : float) : Prop :=
  ((-45) <=? a)%float = true /\ (a <? 45)%float = true.
Definition BackwardSector (a : float) : Prop :=
  (45 <=? a)%float = true /\ (a <? 135)%float = true.
Definition ForwardSector (a : float) : Prop :=
  ((-135) <=? a)%float = true /\ (a <? (-45))%float = true.
Definition LeftSector (a : float) : Prop :=
  (135 <=? a)%float = true \/ (a <? (-135))%float = true.

(** [a < c], the side of the cut [c] on which [a] lies. *)
Definition below (a c : float) : bool := (a <? c)%float.

(** Reading the result of [SFcompare] as "at most" and as "less than". *)
Definition cmp_le (c : option comparison) : bool :=
  match c with
  | Some Lt | Some Eq => true
  | _ => false
  end.

Definition cmp_lt (c : option comparison) : bool :=
  match c with
  | Some Lt => true
  | _ => false
  end.

(** *** The wire format of a speed command

    [SPEED:] followed by the decimal digits of the value: digits only (so no
    sign and nothing after them) and no leading zero. *)
Definition is_digit (c : ascii) : bool :=
  ((48 <=? N_of_ascii c) && (N_of_ascii c <=? 57))%N.

Fixpoint all_digits (s : string) : bool :=
  match s with
  | EmptyString => true
  | String c s' => is_digit c && all_digits s'
  end.

Fixpoint digits_value (acc : Z) (s : string) : Z :=
  match s with
  | EmptyString => acc
  | String c s' => digits_value (10 * acc + (Z.of_N (N_of_ascii c) - 48)) s'
  end.

Definition decimal_of (digits : string) (n : Z) : bool :=
  negb (String.eqb digits "") && all_digits digits &&
  (negb (String.prefix "0" digits) || String.eqb digits "0") &&
  (digits_value 0 digits =? n).

(** [n] is the integer nearest to [p / 100 * 255], the larger one on a tie:
    [n - 1/2 <= p * 255 / 100 < n + 1/2], cleared of fractions. *)
Definition nearest_byte (p n : Z) : bool :=
  (-50 <? 100 * n - 255 * p) && (100 * n - 255 * p <=? 50).

Definition speed_checks (p : Z) : bool :=
  match speedByte p with
  | Int n =>
      nearest_byte p n && (0 <=? n) && (n <=? 255) &&
      decimal_of (Number_toString (Int n)) n
  | _ => false
  end.

(** *** A sample session *)

Definition rover : BluetoothDevice := {| device_name := "ESP32-Rover" |}.
Definition ffe1 : Characteristic := {| characteristic_uuid := CHARACTERISTIC_UUID |}.

(** The session right after a successful [connect()] at time 1000. *)
Definition connected_at_1000 : System :=
  snd (connect constructor initial_world (handshake_done rover ffe1) 1000).

(** ** The display timer *)

(** [str.padStart(2, '0')]. *)
Definition padStart2 (str : string) : string :=
  match String.length str with
  | O => "00"
  | 1%nat => String.append "0" str
  | _ => str
  end.

(** The text of lines 353-357 for a session started at [start], at time
    [now].  [Math.floor] of an integer quotient is the floor quotient of [Z]
    (exact for integers below 2^53); [%] takes the sign of the dividend. *)
Definition connectionTimeText (start now : Z) : string :=
  let elapsed := (now - start) / 1000 in
  let minutes := elapsed / 60 in
  let seconds := Z.rem elapsed 60 in
  String.append (Number_toString (Int minutes))
    (String.append ":" (padStart2 (Number_toString (Int seconds)))).

(** One tick of the interval of [startConnectionTimer()] (lines 350-360): the
    new text of [connectionTime], if it is assigned.  A start time of 0 is
    falsy, like [null]. *)
Definition timer_tick (s : RoverController) (now : Z) : option string :=
  match connectionStartTime s with
  | Some start =>
      if isConnected s && negb (start =? 0)
      then Some (connectionTimeText start now)
      else None
  | None => None
  end.

(** ** Events *)

(** What can happen next: a listener with the environment's answers, or the
    link going down unnoticed. *)
Inductive Input : Type :=
| ev_connect (o : ConnectOutcome) (now : Z)
| ev_disconnect (resolved : bool)
| ev_gattserverdisconnected
| ev_link_down
| ev_arrow_touchstart (cmd : string) (resolved : bool)
| ev_arrow_click (cmd : string) (resolved : bool)
| ev_speed (value : Z) (resolved : bool)
| ev_emergencyStop (resolved : bool)
| ev_resize (rect : DOMRect)
| ev_joystick_press (rect : DOMRect)
| ev_joystick_move (atan2 : float -> float -> float) (cos sin : float -> float)
    (x y : float) (now : Z) (resolved : bool)
| ev_joystick_touchend (resolved : bool)
| ev_mouseup (resolved : bool).

Definition handle (i : Input) (sys : System) : System :=
  let '(s, w) := sys in
  match i with
  | ev_connect o now => snd (connect s w o now)
  | ev_disconnect r => snd (disconnect s w r)
  | ev_gattserverdisconnected => on_gattserverdisconnected s w
  | ev_link_down => (s, set_gatt_connected false w)
  | ev_arrow_touchstart cmd r => arrowBtn_touchstart s w cmd r
  | ev_arrow_click cmd r => arrowBtn_click s w cmd r
  | ev_speed v r => speedSlider_input s w v r
  | ev_emergencyStop r => emergencyStop_click s w r
  | ev_resize rect => (updateCenter rect s, w)
  | ev_joystick_press rect => (joystick_press rect s, w)
  | ev_joystick_move atan2 cos sin x y now r =>
      joystick_move atan2 cos sin s w x y now r
  | ev_joystick_touchend r => joystick_touchend s w r
  | ev_mouseup r => document_mouseup s w r
  end.

(** Events handled in the order they arrive. *)
Definition run (inputs : list Input) (sys : System) : System :=
  fold_left (fun sys i => handle i sys) inputs sys.

(** A [connect()] that goes all the way. *)
Definition is_handshake (i : Input) : bool :=
  match i with
  | ev_connect (handshake_done _ _) _ => true
  | _ => false
  end.

(** The two events that run [onDisconnected]. *)
Definition is_teardown (i : Input) : bool :=
  match i with
  | ev_disconnect _ | ev_gattserverdisconnected => true
  | _ => false
  end.

(** [dirMap[cmd] || dirMap['S']], the label [updateDirection] shows. *)
Definition directionLabel (cmd : string) : string :=
  match dirMap cmd with
  | Some d => d
  | None => "Stopped"
  end.

(** ** Runs of the throttle *)

(** A series of [sendCommandThrottled(cmd)] calls, each with its [Date.now()]
    and the transport's answer: which calls were accepted, and the outcome. *)
Fixpoint throttled_calls (s : RoverController) (w : World)
    (calls : list (string * Z * bool)) : list bool * System :=
  match calls with
  | [] => ([], (s, w))
  | (cmd, now, r) :: rest =>
      let '(s1, w1) := sendCommandThrottled s w cmd now r in
      let '(flags, sys) := throttled_calls s1 w1 rest in
      (shouldSend s cmd now :: flags, sys)
  end.

(** The times of the accepted calls. *)
Fixpoint accepted_times (s : RoverController) (w : World)
    (calls : list (string * Z * bool)) : list Z :=
  match calls with
  | [] => []
  | (cmd, now, r) :: rest =>
      let '(s1, w1) := sendCommandThrottled s w cmd now r in
      if shouldSend s cmd now then now :: accepted_times s1 w1 rest
      else accepted_times s1 w1 rest
  end.

(** Each time is more than [delay] after the one before it. *)
Fixpoint spaced (delay : Z) (times : list Z) : Prop :=
  match times with
  | t1 :: (t2 :: _) as rest => t2 - t1 > delay /\ spaced delay rest
  | _ => True
  end.

(** Each command differs from the one before it, the first from [prev]. *)
Fixpoint each_differs (prev : string) (calls : list (string * Z * bool)) : Prop :=
  match calls with
  | [] => True
  | (cmd, _, _) :: rest => cmd <> prev /\ each_differs cmd rest
  end.

(** ** Checks over ranges of slider values and of seconds *)

(** For [p < q]: both speed bytes are integers, the second is larger, and
    the two commands differ. *)
Definition speed_order_check (p q : Z) : bool :=
  if p <? q then
    match speedByte p, speedByte q with
    | Int m, Int n =>
        (m <? n) && negb (String.eqb (speedCommand p) (speedCommand q))
    | _, _ => false
    end
  else true.

(** Above 100 the byte is above 255. *)
Definition speed_over_check (p : Z) : bool :=
  match speedByte p with
  | Int n => 255 <? n
  | _ => false
  end.

(** Below 0 the value is negative and the command carries its sign. *)
Definition speed_under_check (p : Z) : bool :=
  match speedByte p with
  | Int n => (n <? 0) && String.prefix "SPEED:-" (speedCommand p)
  | _ => false
  end.

(** The seconds field for [k] seconds: two digits that read [k]. *)
Definition seconds_check (k : Z) : bool :=
  let ss := padStart2 (Number_toString (Int k)) in
  Nat.eqb (String.length ss) 2 && all_digits ss && (digits_value 0 ss =? k).

(** ** One drag along the diagonal, past the radius *)

(** The host's [Math] at the arguments this drag evaluates, each value
    correctly rounded to binary64: [atan2(100, 100)] is the Number nearest to
    pi/4, its cosine rounds up and its sine rounds down, and the angle of the
    knob vector they give for a radius of 50 is one unit in the last place
    below pi/4.  Other arguments are not needed and give NaN. *)
Definition host_atan2 (y x : float) : float :=
  if (y =? 100)%float && (x =? 100)%float then
    0x1.921fb54442d18p-1%float
  else if (y =? 0x1.1ad7bc01366b7p+5)%float && (x =? 0x1.1ad7bc01366b8p+5)%float then
    0x1.921fb54442d17p-1%float
  else nan.

Definition host_cos (a : float) : float :=
  if (a =? 0x1.921fb54442d18p-1)%float then 0x1.6a09e667f3bcdp-1%float else nan.

Definition host_sin (a : float) : float :=
  if (a =? 0x1.921fb54442d18p-1)%float then 0x1.6a09e667f3bccp-1%float else nan.

(** An Active session whose joystick base is 200 px wide around the origin:
    centre (0, 0), [maxRadius] 50. *)
Definition session_radius_50 : System :=
  snd (connect
         (new_RoverController
            {| left := -100; top := -100; width := 200; height := 200 |})
         initial_world (handshake_done rover ffe1) 1000).

(** ** Arrow buttons of the page *)

(** The commands an arrow button carries in [data-cmd]: the five own keys of
    [dirMap].  (Indexing [dirMap] with the name of a member inherited from
    [Object.prototype] is outside the table above.) *)
Definition motion_commands : list string := ["F"; "B"; "L"; "R"; "S"].

Definition protocol_input (i : Input) : bool :=
  match i with
  | ev_arrow_touchstart cmd _
  | ev_arrow_click cmd _ => existsb (String.eqb cmd) motion_commands
  | _ => true
  end.

(** * Theorems *)

(** ** Order of binary64 values *)

Module FloatOrder.

Lemma SFcompare_antisym x y :
  SFcompare y x = option_map CompOpp (SFcompare x y).
Proof.
  destruct x as [sx|sx| |sx mx ex], y as [sy|sy| |sy my ey]; cbn;
    try destruct sx; try destruct sy; cbn; try reflexivity;
    change (Pos.compare_cont Eq my mx) with (Pos.compare my mx);
    change (Pos.compare_cont Eq mx my) with (Pos.compare mx my);
    rewrite (Z.compare_antisym ex ey), (Pos.compare_antisym mx my);
    destruct (ex ?= ey); cbn; reflexivity.
Qed.

Ltac cmp_cases :=
  repeat match goal with
  | |- context [Z.compare ?a ?b] => destruct (Z.compare_spec a b)
  | |- context [Pos.compare_cont Eq ?a ?b] =>
      change (Pos.compare_cont Eq a b) with (Pos.compare a b);
      destruct (Pos.compare_spec a b)
  end.

Lemma SFcompare_trans x y z :
  cmp_le (SFcompare x y) = true -> cmp_le (SFcompare y z) = true ->
  cmp_le (SFcompare x z) = true /\
  (cmp_lt (SFcompare x y) || cmp_lt (SFcompare y z) = true ->
   cmp_lt (SFcompare x z) = true).
Proof.
  destruct x as [sx|sx| |sx mx ex], y as [sy|sy| |sy my ey],
           z as [sz|sz| |sz mz ez];
    cbn; try destruct sx; try destruct sy; try destruct sz; cbn;
    try (intros; split; intros; (discriminate || reflexivity || assumption));
    cmp_cases; cbn; intros; split; intros; subst;
    try (discriminate || reflexivity || lia).
Qed.

Lemma SFcompare_defined x y :
  x <> S754_nan -> y <> S754_nan -> exists c, SFcompare x y = Some c.
Proof.
  destruct x as [sx|sx| |sx mx ex], y as [sy|sy| |sy my ey]; cbn;
    intros Hx Hy; try congruence; eexists; reflexivity.
Qed.

Lemma is_nan_Prim2SF x : is_nan x = false -> Prim2SF x <> S754_nan.
Proof.
  unfold is_nan. rewrite FloatAxioms.eqb_spec. intros H E.
  rewrite E in H. discriminate.
Qed.

(** [c <= a] is the negation of [a < c] unless one of them is NaN. *)
Lemma leb_negb_ltb a c :
  is_nan a = false -> is_nan c = false ->
  (c <=? a)%float = negb (a <? c)%float.
Proof.
  intros Ha Hc. rewrite FloatAxioms.leb_spec, FloatAxioms.ltb_spec.
  unfold SFleb, SFltb. rewrite (SFcompare_antisym (Prim2SF a) (Prim2SF c)).
  destruct (SFcompare_defined _ _ (is_nan_Prim2SF _ Ha) (is_nan_Prim2SF _ Hc))
    as [k ->].
  destruct k; reflexivity.
Qed.

Lemma ltb_leb_trans a c c' :
  (a <? c)%float = true -> (c <=? c')%float = true -> (a <? c')%float = true.
Proof.
  rewrite !FloatAxioms.ltb_spec, FloatAxioms.leb_spec. unfold SFltb, SFleb.
  intros H1 H2.
  destruct (SFcompare_trans (Prim2SF a) (Prim2SF c) (Prim2SF c')) as [_ H].
  - destruct (SFcompare (Prim2SF a) (Prim2SF c)) as [[]|];
      discriminate || reflexivity.
  - destruct (SFcompare (Prim2SF c) (Prim2SF c')) as [[]|];
      discriminate || reflexivity.
  - destruct (SFcompare (Prim2SF a) (Prim2SF c')) as [[]|]; cbn in H;
      try reflexivity; apply H;
      destruct (SFcompare (Prim2SF a) (Prim2SF c)) as [[]|];
      discriminate || reflexivity.
Qed.

Lemma leb_refl_not_nan a b : (a <=? b)%float = true -> is_nan b = false.
Proof.
  rewrite FloatAxioms.leb_spec. unfold is_nan, SFleb.
  rewrite FloatAxioms.eqb_spec. unfold SFeqb.
  destruct (Prim2SF b) as [sb|sb| |sb mb eb], (Prim2SF a) as [sa|sa| |sa ma ea];
    cbn; try discriminate; try reflexivity; intros _;
    try change (Pos.compare_cont Eq mb mb) with (Pos.compare mb mb);
    rewrite ?Z.compare_refl, ?Pos.compare_refl; destruct sb; reflexivity.
Qed.

End FloatOrder.

(** ** The knob inside its radius *)

(** A displacement no longer than [maxRadius] is used as it is, for the knob
    and for the angle. *)
Lemma clampToRadius_inside atan2 cos sin s d :
  (maxRadius s <? distanceOf d)%float = false ->
  clampToRadius atan2 cos sin s d = d.
Proof. unfold clampToRadius. now intros ->. Qed.

Lemma clampToRadius_outside atan2 cos sin s d :
  (maxRadius s <? distanceOf d)%float = true ->
  clampToRadius atan2 cos sin s d =
    ((cos (atan2 (snd d) (fst d)) * maxRadius s)%float,
     (sin (atan2 (snd d) (fst d)) * maxRadius s)%float).
Proof. unfold clampToRadius. now intros ->. Qed.

Lemma handleJoystickMove_inside atan2 cos sin s w x y now r :
  let d := displacement s x y in
  (maxRadius s <? distanceOf d)%float = false ->
  handleJoystickMove atan2 cos sin s w x y now r =
    sendCommandThrottled s (set_joystick_transform d w)
      (joystickCommand (distanceOf d)
         (atan2 (snd d) (fst d) * (180 / Math_PI))%float)
      now r.
Proof.
  intros d H. unfold handleJoystickMove. fold d.
  now rewrite (clampToRadius_inside atan2 cos sin s d H).
Qed.

(** ** The direction ladder *)

Section Ladder.

Variable a : float.
Hypothesis a_number : is_nan a = false.

Lemma at_least_cut c : is_nan c = false -> (c <=? a)%float = negb (below a c).
Proof. intros Hc. now apply FloatOrder.leb_negb_ltb. Qed.

Lemma below_mono c c' :
  (c <=? c')%float = true -> below a c = true -> below a c' = true.
Proof. intros Hcc' Hc. exact (FloatOrder.ltb_leb_trans a c c' Hc Hcc'). Qed.

(** Where [a] can lie with respect to the four cuts -135 < -45 < 45 < 135. *)
Lemma ladder_cases :
  (below a (-135) = true /\ below a (-45) = true /\ below a 45 = true /\ below a 135 = true) \/
  (below a (-135) = false /\ below a (-45) = true /\ below a 45 = true /\ below a 135 = true) \/
  (below a (-135) = false /\ below a (-45) = false /\ below a 45 = true /\ below a 135 = true) \/
  (below a (-135) = false /\ below a (-45) = false /\ below a 45 = false /\ below a 135 = true) \/
  (below a (-135) = false /\ below a (-45) = false /\ below a 45 = false /\ below a 135 = false).
Proof.
  pose proof (below_mono (-135) (-45) eq_refl) as H1.
  pose proof (below_mono (-45) 45 eq_refl) as H2.
  pose proof (below_mono 45 135 eq_refl) as H3.
  destruct (below a (-135)), (below a (-45)), (below a 45), (below a 135);
    try (specialize (H1 eq_refl)); try (specialize (H2 eq_refl));
    try (specialize (H3 eq_refl)); try discriminate; tauto.
Qed.

End Ladder.

Ltac ladder a Ha :=
  unfold RightSector, BackwardSector, ForwardSector, LeftSector;
  rewrite ?(at_least_cut a Ha (-45) eq_refl), ?(at_least_cut a Ha 45 eq_refl),
          ?(at_least_cut a Ha (-135) eq_refl), ?(at_least_cut a Ha 135 eq_refl);
  fold (below a 45) (below a 135) (below a (-45)) (below a (-135));
  destruct (ladder_cases a) as [H|[H|[H|[H|H]]]];
  destruct H as (H1 & H2 & H3 & H4); rewrite ?H1, ?H2, ?H3, ?H4; cbn.

Lemma joystickCommand_deadzone distance angle :
  (distance <? 30)%float = true -> joystickCommand distance angle = "S".
Proof. unfold joystickCommand, threshold. now intros ->. Qed.

Lemma joystickCommand_outside distance angle :
  (30 <=? distance)%float = true ->
  joystickCommand distance angle =
    if ((-45) <=? angle)%float && (angle <? 45)%float then "R"
    else if (45 <=? angle)%float && (angle <? 135)%float then "B"
    else if ((-135) <=? angle)%float && (angle <? (-45))%float then "F"
    else "L".
Proof.
  intros Hd. unfold joystickCommand, threshold.
  pose proof (FloatOrder.leb_refl_not_nan _ _ Hd) as Hn.
  rewrite (FloatOrder.leb_negb_ltb distance 30 Hn eq_refl) in Hd.
  apply negb_true_iff in Hd. now rewrite Hd.
Qed.

(** C3, as the code has it.  A joystick move hands the throttle the ladder's
    command for the
    length of the displacement and the angle, in degrees, of the knob vector;
    for a displacement no longer than [maxRadius] that is [atan2(dy, dx)] of
    the displacement itself.  Below the 30-unit deadzone the command is Stop,
    whatever the angle.  From 30 units on, the command is decided by the
    angle: R exactly on [-45,45), B exactly on [45,135), F exactly on
    [-135,-45) and L exactly on the rest (135 and above, or below -135); every
    angle lies in one of the four sectors and in no two of them; and 45 itself
    gives B. *)
Theorem joystickCommand_sectors (distance angle : float) :
  (forall atan2 cos sin s w x y now r,
     let d := displacement s x y in
     let new := clampToRadius atan2 cos sin s d in
     handleJoystickMove atan2 cos sin s w x y now r =
       sendCommandThrottled s (set_joystick_transform new w)
         (joystickCommand (distanceOf d)
            (atan2 (snd new) (fst new) * (180 / Math_PI))%float) now r /\
     ((maxRadius s <? distanceOf d)%float = false -> new = d)) /\
  ((distance <? 30)%float = true -> joystickCommand distance angle = "S") /\
  ((30 <=? distance)%float = true -> is_nan angle = false ->
     (joystickCommand distance angle = "R" <-> RightSector angle) /\
     (joystickCommand distance angle = "B" <-> BackwardSector angle) /\
     (joystickCommand distance angle = "F" <-> ForwardSector angle) /\
     (joystickCommand distance angle = "L" <-> LeftSector angle) /\
     (RightSector angle \/ BackwardSector angle \/
      ForwardSector angle \/ LeftSector angle) /\
     ~ (RightSector angle /\ BackwardSector angle) /\
     ~ (RightSector angle /\ ForwardSector angle) /\
     ~ (RightSector angle /\ LeftSector angle) /\
     ~ (BackwardSector angle /\ ForwardSector angle) /\
     ~ (BackwardSector angle /\ LeftSector angle) /\
     ~ (ForwardSector angle /\ LeftSector angle)) /\
  ((30 <=? distance)%float = true -> joystickCommand distance 45 = "B").
Proof.
  split; [|split; [apply joystickCommand_deadzone|split]].
  - intros. split; [reflexivity|apply clampToRadius_inside].
  - intros Hd Ha. rewrite (joystickCommand_outside _ _ Hd).
    ladder angle Ha; intuition (discriminate || congruence).
  - intros Hd. now rewrite (joystickCommand_outside _ _ Hd).
Qed.

Lemma joystickCommand_sectors_witness :
  joystickCommand 10 90 = "S" /\
  (joystickCommand 60 (-90) = "F" <-> ForwardSector (-90)) /\
  joystickCommand 80 45 = "B".
Proof.
  destruct (joystickCommand_sectors 10 90) as (_ & H1 & _ & _).
  destruct (joystickCommand_sectors 60 (-90)) as (_ & _ & H2 & _).
  destruct (joystickCommand_sectors 80 45) as (_ & _ & _ & H3).
  split; [apply H1; reflexivity|].
  split; [apply (H2 eq_refl eq_refl)|apply H3; reflexivity].
Defined.

(** Against C3 as stated: a drag to (100, 100) with the knob's radius at 50.
    The displacement is 141 units long and [atan2(dy, dx)] in degrees is
    exactly 45, which the ladder maps to B; the command sent is R, because the
    angle is taken from the clamped knob vector, which comes out just under
    45 degrees. *)
Lemma diagonal_drag_beyond_radius_sends_R :
  let s := fst session_radius_50 in
  let w := snd session_radius_50 in
  let d := displacement s 100 100 in
  d = (100%float, 100%float) /\
  maxRadius s = 50%float /\
  (30 <=? distanceOf d)%float = true /\
  (host_atan2 (snd d) (fst d) * (180 / Math_PI))%float = 45%float /\
  joystickCommand (distanceOf d)
    (host_atan2 (snd d) (fst d) * (180 / Math_PI))%float = "B" /\
  lastCommand
    (fst (handleJoystickMove host_atan2 host_cos host_sin s w 100 100 2000 true))
    = "R" /\
  transmitted
    (effects
       (snd (handleJoystickMove host_atan2 host_cos host_sin s w 100 100 2000 true)))
    = [TextEncoder_encode "R"].
Proof. vm_compute. repeat split; reflexivity. Qed.

(** ** What [sendCommand] changes *)

Lemma transmitted_app l l' :
  transmitted (l ++ l') = transmitted l ++ transmitted l'.
Proof.
  induction l as [|e l IH]; [reflexivity|].
  destruct e as [v [|]| | | | | | |]; cbn; now rewrite IH.
Qed.

Lemma writeAttempts_app l l' :
  writeAttempts (l ++ l') = writeAttempts l ++ writeAttempts l'.
Proof.
  induction l as [|e l IH]; [reflexivity|].
  destruct e; cbn; now rewrite IH.
Qed.

Lemma notConnected_Active s : notConnected s = false <-> Active s.
Proof.
  unfold notConnected, Active.
  destruct (isConnected s), (characteristic s); cbn; intuition congruence.
Qed.

Lemma sendCommand_completion s w cmd resolved :
  fst (sendCommand s w cmd resolved) = Normal.
Proof.
  unfold sendCommand, characteristic_writeValue.
  destruct (notConnected s), resolved; reflexivity.
Qed.

(** The fields [sendCommand] never assigns. *)
Lemma sendCommand_frame s w cmd resolved :
  let s' := fst (snd (sendCommand s w cmd resolved)) in
  device s' = device s /\ characteristic s' = characteristic s /\
  isConnected s' = isConnected s /\ currentSpeed s' = currentSpeed s /\
  connectionStartTime s' = connectionStartTime s /\
  joystickActive s' = joystickActive s /\ joystickCenter s' = joystickCenter s /\
  maxRadius s' = maxRadius s /\ lastCommand s' = lastCommand s /\
  lastCommandTime s' = lastCommandTime s /\ commandDelay s' = commandDelay s.
Proof.
  unfold sendCommand, characteristic_writeValue.
  destruct (notConnected s), resolved; cbn; repeat split; reflexivity.
Qed.

Lemma sendCommand_world s w cmd resolved :
  let w' := snd (snd (sendCommand s w cmd resolved)) in
  gatt_connected w' = gatt_connected w /\
  joystick_transform w' = joystick_transform w.
Proof.
  unfold sendCommand, characteristic_writeValue.
  destruct (notConnected s), resolved; cbn; split; reflexivity.
Qed.

(** An Active session whose write resolves transmits the command's bytes,
    counts it and shows its direction. *)
Lemma sendCommand_resolved s w cmd :
  Active s ->
  sendCommand s w cmd true =
    (Normal,
     (updateDirection cmd (set_commandCount (commandCount s + 1) s),
      emit (console_log_Sent cmd (commandCount s + 1))
        (emit (writeValue (TextEncoder_encode cmd) true) w))).
Proof.
  intros H. apply notConnected_Active in H.
  unfold sendCommand. rewrite H. reflexivity.
Qed.

Lemma sendCommand_transmits s w cmd :
  Active s ->
  transmitted (effects (snd (snd (sendCommand s w cmd true)))) =
    transmitted (effects w) ++ [TextEncoder_encode cmd].
Proof.
  intros H. rewrite (sendCommand_resolved s w cmd H). cbn.
  rewrite !transmitted_app. cbn. now rewrite app_nil_r.
Qed.

(** ** The throttle *)

Lemma shouldSend_spec s cmd now :
  shouldSend s cmd now = true <->
  cmd <> lastCommand s \/ now - lastCommandTime s > commandDelay s.
Proof.
  unfold shouldSend. rewrite orb_true_iff, negb_true_iff, Z.ltb_lt.
  destruct (String.eqb_spec cmd (lastCommand s)); intuition (congruence || lia).
Qed.

Lemma sendCommandThrottled_accept s w cmd now resolved :
  shouldSend s cmd now = true ->
  sendCommandThrottled s w cmd now resolved =
    (set_lastCommandTime now
       (set_lastCommand cmd (fst (snd (sendCommand s w cmd resolved)))),
     snd (snd (sendCommand s w cmd resolved))).
Proof.
  unfold sendCommandThrottled. intros ->.
  now destruct (snd (sendCommand s w cmd resolved)).
Qed.

Lemma sendCommandThrottled_reject s w cmd now resolved :
  shouldSend s cmd now = false ->
  sendCommandThrottled s w cmd now resolved = (s, w).
Proof. unfold sendCommandThrottled. now intros ->. Qed.

(** C1.  With the 100 ms delay of the constructor, the throttle accepts a
    command exactly when it differs from the last recorded command or more
    than 100 ms have passed since the last recorded time.  On acceptance it
    calls [sendCommand] (whose bytes go out when the session is Active and the
    write resolves) and records the command and the time; otherwise nothing
    changes.  Hence the same command again within 100 ms of an accepted one is
    not accepted, and a command that differs from the last one always is. *)
Theorem sendCommandThrottled_policy s w cmd now resolved :
  commandDelay s = 100 ->
  (shouldSend s cmd now = true <->
     cmd <> lastCommand s \/ now - lastCommandTime s > 100) /\
  (shouldSend s cmd now = true ->
     let sent := snd (sendCommand s w cmd resolved) in
     sendCommandThrottled s w cmd now resolved =
       (set_lastCommandTime now (set_lastCommand cmd (fst sent)), snd sent) /\
     throttleState (fst (sendCommandThrottled s w cmd now resolved)) = (cmd, now) /\
     (Active s -> resolved = true ->
      transmitted (effects (snd (sendCommandThrottled s w cmd now resolved))) =
        transmitted (effects w) ++ [TextEncoder_encode cmd])) /\
  (shouldSend s cmd now = false ->
     sendCommandThrottled s w cmd now resolved = (s, w)) /\
  (shouldSend s cmd now = true ->
     forall now' resolved', now' - now <= 100 ->
     let after := sendCommandThrottled s w cmd now resolved in
     shouldSend (fst after) cmd now' = false /\
     sendCommandThrottled (fst after) (snd after) cmd now' resolved' = after) /\
  (cmd <> lastCommand s -> shouldSend s cmd now = true).
Proof.
  intros Hdelay.
  assert (Hagain : shouldSend s cmd now = true ->
            forall now', now' - now <= 100 ->
            shouldSend (fst (sendCommandThrottled s w cmd now resolved)) cmd now'
            = false).
  { intros Hs now' Hclose.
    rewrite (sendCommandThrottled_accept _ _ _ _ _ Hs). cbn.
    destruct (sendCommand_frame s w cmd resolved) as (_&_&_&_&_&_&_&_&_&_&Hd).
    unfold shouldSend; cbn. rewrite Hd, Hdelay, String.eqb_refl. cbn.
    apply Z.ltb_ge. lia. }
  split; [rewrite shouldSend_spec, Hdelay; tauto|].
  split; [|split; [apply sendCommandThrottled_reject|split]].
  - intros Hs. cbn zeta. rewrite (sendCommandThrottled_accept _ _ _ _ _ Hs).
    split; [reflexivity|]. split; [reflexivity|].
    intros Hact ->. cbn. now apply sendCommand_transmits.
  - intros Hs now' resolved' Hclose. cbn zeta.
    pose proof (Hagain Hs now' Hclose) as Hno.
    split; [exact Hno|].
    destruct (sendCommandThrottled s w cmd now resolved) as [s1 w1].
    now apply sendCommandThrottled_reject.
  - intros Hne. apply shouldSend_spec. now left.
Qed.

Lemma sendCommandThrottled_policy_witness :
  commandDelay constructor = 100 /\
  (shouldSend constructor "F" 5 = true <->
     "F" <> lastCommand constructor \/ 5 - lastCommandTime constructor > 100) /\
  shouldSend
    (fst (sendCommandThrottled constructor initial_world "F" 5 true)) "F" 105
  = false.
Proof.
  destruct (sendCommandThrottled_policy constructor initial_world "F" 5 true
              eq_refl) as (H1 & _ & _ & H4 & _).
  split; [reflexivity|]. split; [exact H1|].
  apply (H4 eq_refl 105 true). cbn. lia.
Defined.

(** ** Sending outside an Active session, and failed writes *)

Lemma sendCommand_guard s w cmd resolved :
  isConnected s = false \/ characteristic s = None ->
  sendCommand s w cmd resolved =
    (Normal, (s, emit console_warn_NotConnected w)).
Proof.
  intros H.
  assert (Hn : notConnected s = true).
  { unfold notConnected. destruct H as [-> | ->]; [reflexivity|].
    now destruct (isConnected s). }
  unfold sendCommand. now rewrite Hn.
Qed.

(** C7.  When the session is not Active ([isConnected] false or no
    characteristic), [sendCommand] completes normally, leaves every field of
    the controller as it was, hands nothing to the transport, and its only
    effect is the "Not connected" warning. *)
Theorem sendCommand_notConnected s w cmd resolved :
  isConnected s = false \/ characteristic s = None ->
  sendCommand s w cmd resolved =
    (Normal, (s, emit console_warn_NotConnected w)) /\
  writeAttempts (effects (snd (snd (sendCommand s w cmd resolved)))) =
    writeAttempts (effects w).
Proof.
  intros H. rewrite (sendCommand_guard s w cmd resolved H).
  split; [reflexivity|].
  cbn. rewrite writeAttempts_app. cbn. now rewrite app_nil_r.
Qed.

Lemma sendCommand_notConnected_witness :
  sendCommand constructor initial_world "F" true =
    (Normal, (constructor, emit console_warn_NotConnected initial_world)).
Proof.
  apply (sendCommand_notConnected constructor initial_world "F" true).
  left. reflexivity.
Defined.

(** C8.  When the write of an Active session is rejected, [sendCommand]
    catches the error and completes normally with the controller unchanged
    (still Active; count and direction as before).  The transport saw exactly
    one attempt, nothing was transmitted, and nothing is kept for later: a
    following command that goes through is the only one transmitted. *)
Theorem sendCommand_writeFailed s w cmd :
  Active s ->
  sendCommand s w cmd false =
    (Normal, (s, emit console_error_SendFailed
                   (emit (writeValue (TextEncoder_encode cmd) false) w))) /\
  writeAttempts (effects (snd (snd (sendCommand s w cmd false)))) =
    writeAttempts (effects w) ++ [TextEncoder_encode cmd] /\
  transmitted (effects (snd (snd (sendCommand s w cmd false)))) =
    transmitted (effects w) /\
  (forall cmd',
     let '(s1, w1) := snd (sendCommand s w cmd false) in
     transmitted (effects (snd (snd (sendCommand s1 w1 cmd' true)))) =
       transmitted (effects w) ++ [TextEncoder_encode cmd']).
Proof.
  intros Hact. pose proof Hact as Hn. apply notConnected_Active in Hn.
  assert (E : sendCommand s w cmd false =
    (Normal, (s, emit console_error_SendFailed
                   (emit (writeValue (TextEncoder_encode cmd) false) w)))).
  { unfold sendCommand. rewrite Hn. reflexivity. }
  rewrite E. cbn [fst snd].
  assert (T : transmitted (effects (emit console_error_SendFailed
                (emit (writeValue (TextEncoder_encode cmd) false) w))) =
              transmitted (effects w)).
  { cbn. rewrite !transmitted_app. cbn. now rewrite !app_nil_r. }
  repeat split.
  - cbn. rewrite !writeAttempts_app. cbn. now rewrite app_nil_r.
  - exact T.
  - intros cmd'. rewrite (sendCommand_transmits _ _ _ Hact). now rewrite T.
Qed.

Lemma connected_at_1000_Active : Active (fst connected_at_1000).
Proof. split; cbn; congruence. Qed.

Lemma sendCommand_writeFailed_witness :
  Active (fst connected_at_1000) /\
  transmitted (effects (snd (snd
    (sendCommand (fst connected_at_1000) (snd connected_at_1000) "F" false)))) =
  transmitted (effects (snd connected_at_1000)).
Proof.
  split; [exact connected_at_1000_Active|].
  apply (sendCommand_writeFailed (fst connected_at_1000) (snd connected_at_1000)
           "F" connected_at_1000_Active).
Defined.

(** ** Who writes the throttle state *)

Lemma sendCommand_throttleState s w cmd resolved :
  throttleState (fst (snd (sendCommand s w cmd resolved))) = throttleState s.
Proof.
  destruct (sendCommand_frame s w cmd resolved) as (_&_&_&_&_&_&_&_&H1&H2&_).
  unfold throttleState. now rewrite H1, H2.
Qed.

Lemma onDisconnected_throttleState s :
  throttleState (onDisconnected s) = throttleState s.
Proof. reflexivity. Qed.

Lemma connect_throttleState s w o now :
  throttleState (fst (snd (connect s w o now))) = throttleState s.
Proof. destruct o; reflexivity. Qed.

Lemma disconnect_throttleState s w resolved :
  throttleState (fst (snd (disconnect s w resolved))) = throttleState s.
Proof.
  unfold disconnect.
  destruct (device s), (gatt_connected w); try reflexivity.
  pose proof (sendCommand_completion s w "S" resolved) as Hc.
  pose proof (sendCommand_throttleState s w "S" resolved) as Ht.
  destruct (sendCommand s w "S" resolved) as [[|] [s1 w1]];
    cbn in *; [exact Ht|discriminate].
Qed.

Lemma sendCommandThrottled_throttleState s w cmd now resolved :
  shouldSend s cmd now = true ->
  throttleState (fst (sendCommandThrottled s w cmd now resolved)) = (cmd, now).
Proof. intros H. now rewrite (sendCommandThrottled_accept _ _ _ _ _ H). Qed.

(** C10.  [lastCommand] and [lastCommandTime] are left as they were by
    [sendCommand] and so by the joystick release, the emergency stop, the
    arrow buttons and the speed slider; by [connect] whatever its outcome; by
    [onDisconnected], [disconnect] and the link-loss listener; by the joystick
    press; and by a throttled call that is not accepted.  A joystick move
    changes them only through an accepted throttled call.  They therefore
    survive a disconnect followed by a connect.  An accepted throttled call
    records command and time even when the session is not Active and nothing
    reaches the transport. *)
Theorem throttleState_frame :
  (forall s w cmd r,
     throttleState (fst (snd (sendCommand s w cmd r))) = throttleState s) /\
  (forall s w r, throttleState (fst (resetJoystick s w r)) = throttleState s) /\
  (forall s w r, throttleState (fst (joystick_touchend s w r)) = throttleState s) /\
  (forall s w r, throttleState (fst (document_mouseup s w r)) = throttleState s) /\
  (forall s w r, throttleState (fst (emergencyStop_click s w r)) = throttleState s) /\
  (forall s w cmd r,
     throttleState (fst (arrowBtn_touchstart s w cmd r)) = throttleState s /\
     throttleState (fst (arrowBtn_click s w cmd r)) = throttleState s) /\
  (forall s w v r,
     throttleState (fst (speedSlider_input s w v r)) = throttleState s) /\
  (forall s w o now,
     throttleState (fst (snd (connect s w o now))) = throttleState s) /\
  (forall s, throttleState (onDisconnected s) = throttleState s) /\
  (forall s w r,
     throttleState (fst (snd (disconnect s w r))) = throttleState s) /\
  (forall s w,
     throttleState (fst (on_gattserverdisconnected s w)) = throttleState s) /\
  (forall s rect, throttleState (joystick_press rect s) = throttleState s) /\
  (forall s w cmd now r,
     shouldSend s cmd now = false ->
     sendCommandThrottled s w cmd now r = (s, w)) /\
  (forall atan2 cos sin s w x y now r,
     throttleState (fst (joystick_move atan2 cos sin s w x y now r))
       = throttleState s \/
     exists cmd,
       shouldSend s cmd now = true /\
       throttleState (fst (joystick_move atan2 cos sin s w x y now r))
         = (cmd, now)) /\
  (forall s w r o now,
     let '(s1, w1) := snd (disconnect s w r) in
     throttleState (fst (snd (connect s1 w1 o now))) = throttleState s) /\
  (forall s w cmd now r,
     shouldSend s cmd now = true ->
     isConnected s = false \/ characteristic s = None ->
     throttleState (fst (sendCommandThrottled s w cmd now r)) = (cmd, now) /\
     writeAttempts (effects (snd (sendCommandThrottled s w cmd now r))) =
       writeAttempts (effects w)).
Proof.
  repeat match goal with |- _ /\ _ => split end.
  - apply sendCommand_throttleState.
  - intros. unfold resetJoystick. apply sendCommand_throttleState.
  - intros. unfold joystick_touchend, resetJoystick.
    now rewrite sendCommand_throttleState.
  - intros. unfold document_mouseup, resetJoystick.
    destruct (joystickActive s); [|reflexivity].
    now rewrite sendCommand_throttleState.
  - intros. apply sendCommand_throttleState.
  - intros. split; apply sendCommand_throttleState.
  - intros. unfold speedSlider_input. now rewrite sendCommand_throttleState.
  - apply connect_throttleState.
  - apply onDisconnected_throttleState.
  - apply disconnect_throttleState.
  - reflexivity.
  - reflexivity.
  - apply sendCommandThrottled_reject.
  - intros. unfold joystick_move, handleJoystickMove.
    destruct (joystickActive s); [|now left].
    match goal with
    | |- context [sendCommandThrottled s ?w1 ?c now r] =>
        destruct (shouldSend s c now) eqn:E;
        [right; exists c; split;
           [exact E|now apply sendCommandThrottled_throttleState]
        |left; now rewrite (sendCommandThrottled_reject s w1 c now r E)]
    end.
  - intros s w r o now.
    pose proof (disconnect_throttleState s w r) as H.
    destruct (snd (disconnect s w r)) as [s1 w1]. cbn in H.
    now rewrite connect_throttleState.
  - intros s w cmd now r Hs Hn.
    rewrite (sendCommandThrottled_accept _ _ _ _ _ Hs).
    split; [reflexivity|]. cbn [snd].
    rewrite (sendCommand_guard s w cmd r Hn). cbn.
    rewrite writeAttempts_app. cbn. now rewrite app_nil_r.
Qed.

Lemma throttleState_frame_witness :
  shouldSend constructor "F" 7 = true /\
  throttleState (fst (sendCommandThrottled constructor initial_world "F" 7 true))
    = ("F", 7) /\
  writeAttempts
    (effects (snd (sendCommandThrottled constructor initial_world "F" 7 true)))
    = [].
Proof.
  split; [reflexivity|].
  apply throttleState_frame; [reflexivity|left; reflexivity].
Defined.

(** ** Which inputs go through the throttle *)

Lemma sendCommand_Active s w cmd resolved :
  Active s -> Active (fst (snd (sendCommand s w cmd resolved))).
Proof.
  destruct (sendCommand_frame s w cmd resolved) as (_&H1&H2&_).
  unfold Active. now rewrite H1, H2.
Qed.

(** Two commands sent in a row by an Active session whose writes resolve are
    both transmitted, equal or not. *)
Lemma sendCommand_twice s w cmd cmd' :
  Active s ->
  let '(s1, w1) := snd (sendCommand s w cmd true) in
  transmitted (effects (snd (snd (sendCommand s1 w1 cmd' true)))) =
    transmitted (effects w) ++ [TextEncoder_encode cmd; TextEncoder_encode cmd'].
Proof.
  intros Hact.
  pose proof (sendCommand_Active s w cmd true Hact) as Hact1.
  pose proof (sendCommand_transmits s w cmd Hact) as Ht.
  destruct (snd (sendCommand s w cmd true)) as [s1 w1]. cbn [fst snd] in *.
  rewrite (sendCommand_transmits s1 w1 cmd' Hact1), Ht.
  now rewrite <- app_assoc.
Qed.

(** Against C2 as stated: the same slider value twice, with no time in
    between, on an Active session.  "SPEED:128" goes out twice and the throttle
    state is not touched. *)
Lemma speedSlider_repeat_transmitted_twice :
  let '(s1, w1) :=
    speedSlider_input (fst connected_at_1000) (snd connected_at_1000) 50 true in
  let '(s2, w2) := speedSlider_input s1 w1 50 true in
  transmitted (effects w2) =
    [TextEncoder_encode "SPEED:128"; TextEncoder_encode "SPEED:128"] /\
  throttleState s2 = throttleState (fst connected_at_1000).
Proof. vm_compute. split; reflexivity. Qed.

(** C2, as the code has it.  A joystick move sends its command through
    [sendCommandThrottled], and transmits nothing when the throttle does not
    accept it.  Arrow buttons and the speed slider call [sendCommand]
    directly: on an Active session whose writes resolve, two presses of one
    button, or two slider inputs of one value, are both transmitted, whatever
    the throttle state and however close together. *)
Theorem input_paths :
  (forall atan2 cos sin s w x y now r,
     let d := displacement s x y in
     let new := clampToRadius atan2 cos sin s d in
     let cmd := joystickCommand (distanceOf d) (angleDegrees atan2 new) in
     handleJoystickMove atan2 cos sin s w x y now r =
       sendCommandThrottled s (set_joystick_transform new w) cmd now r /\
     (shouldSend s cmd now = false ->
      effects (snd (handleJoystickMove atan2 cos sin s w x y now r)) = effects w)) /\
  (forall s w cmd,
     Active s ->
     let '(s1, w1) := arrowBtn_click s w cmd true in
     transmitted (effects (snd (arrowBtn_click s1 w1 cmd true))) =
       transmitted (effects w) ++ [TextEncoder_encode cmd; TextEncoder_encode cmd]) /\
  (forall s w cmd,
     Active s ->
     let '(s1, w1) := arrowBtn_touchstart s w cmd true in
     transmitted (effects (snd (arrowBtn_touchstart s1 w1 cmd true))) =
       transmitted (effects w) ++ [TextEncoder_encode cmd; TextEncoder_encode cmd]) /\
  (forall s w v,
     Active s ->
     let '(s1, w1) := speedSlider_input s w v true in
     transmitted (effects (snd (speedSlider_input s1 w1 v true))) =
       transmitted (effects w) ++
       [TextEncoder_encode (speedCommand v); TextEncoder_encode (speedCommand v)]).
Proof.
  repeat match goal with |- _ /\ _ => split end.
  - intros. split; [reflexivity|].
    intros Hs. unfold handleJoystickMove. fold d new cmd.
    now rewrite (sendCommandThrottled_reject _ _ _ _ _ Hs).
  - intros s w cmd Hact. unfold arrowBtn_click.
    pose proof (sendCommand_twice s w cmd cmd Hact) as H.
    now destruct (snd (sendCommand s w cmd true)) as [s1 w1].
  - intros s w cmd Hact. unfold arrowBtn_touchstart.
    pose proof (sendCommand_twice s w cmd cmd Hact) as H.
    now destruct (snd (sendCommand s w cmd true)) as [s1 w1].
  - intros s w v Hact. unfold speedSlider_input.
    assert (Hact' : Active (set_currentSpeed v s)) by exact Hact.
    pose proof (sendCommand_twice (set_currentSpeed v s) w
                  (speedCommand v) (speedCommand v) Hact') as H.
    pose proof (sendCommand_frame (set_currentSpeed v s) w (speedCommand v) true)
      as (_&_&_&Hv&_).
    cbn [currentSpeed set_currentSpeed] in *.
    destruct (snd (sendCommand (set_currentSpeed v s) w (speedCommand v) true))
      as [s1 w1]. cbn [fst] in Hv.
    assert (E : set_currentSpeed v s1 = s1) by (destruct s1; cbn in *; now subst).
    rewrite E. exact H.
Qed.

Lemma input_paths_witness :
  Active (fst connected_at_1000) /\
  let '(s1, w1) :=
    arrowBtn_click (fst connected_at_1000) (snd connected_at_1000) "F" true in
  transmitted (effects (snd (arrowBtn_click s1 w1 "F" true))) =
    transmitted (effects (snd connected_at_1000)) ++
    [TextEncoder_encode "F"; TextEncoder_encode "F"].
Proof.
  split; [exact connected_at_1000_Active|].
  apply (proj1 (proj2 input_paths) (fst connected_at_1000)
           (snd connected_at_1000) "F" connected_at_1000_Active).
Defined.

(** ** Leaving the Active state *)

Lemma onDisconnected_after_sendCommand s w cmd resolved :
  onDisconnected (fst (snd (sendCommand s w cmd resolved))) = onDisconnected s.
Proof.
  unfold sendCommand, characteristic_writeValue.
  destruct (notConnected s), resolved; reflexivity.
Qed.

Lemma disconnect_cleanup s w resolved :
  fst (disconnect s w resolved) = Normal /\
  fst (snd (disconnect s w resolved)) = onDisconnected s.
Proof.
  unfold disconnect.
  destruct (device s), (gatt_connected w); try (split; reflexivity).
  pose proof (sendCommand_completion s w "S" resolved) as Hc.
  pose proof (onDisconnected_after_sendCommand s w "S" resolved) as Hd.
  destruct (sendCommand s w "S" resolved) as [[|] [s1 w1]]; cbn in *;
    [now split|discriminate].
Qed.

(** Against C4 as stated: link loss on an Active session.  The session is
    torn down and the transport was handed nothing, so no Stop was attempted. *)
Lemma link_loss_sends_no_Stop :
  Active (fst connected_at_1000) /\
  isConnected
    (fst (on_gattserverdisconnected (fst connected_at_1000) (snd connected_at_1000)))
    = false /\
  writeAttempts
    (effects (snd (on_gattserverdisconnected (fst connected_at_1000)
                     (snd connected_at_1000))))
    = [].
Proof. split; [exact connected_at_1000_Active|]. split; reflexivity. Qed.

(** C4, as the code has it.  [disconnect()] on an Active session whose device
    is still GATT-connected makes exactly one attempt to write "S", then calls
    [gatt.disconnect()], then cleans up; it completes normally whether or not
    that write resolved.  The link-loss listener hands nothing to the transport.
    Both end in the controller state [onDisconnected] gives. *)
Theorem disconnect_paths :
  (forall s w r,
     Active s -> device s <> None -> gatt_connected w = true ->
     fst (disconnect s w r) = Normal /\
     effects (snd (snd (disconnect s w r))) =
       effects w ++
       [writeValue (TextEncoder_encode "S") r;
        if r then console_log_Sent "S" (commandCount s + 1)
        else console_error_SendFailed;
        gatt_disconnect] /\
     writeAttempts (effects (snd (snd (disconnect s w r)))) =
       writeAttempts (effects w) ++ [TextEncoder_encode "S"] /\
     gatt_connected (snd (snd (disconnect s w r))) = false) /\
  (forall s w,
     writeAttempts (effects (snd (on_gattserverdisconnected s w))) =
       writeAttempts (effects w)) /\
  (forall s w r,
     fst (disconnect s w r) = Normal /\
     fst (snd (disconnect s w r)) = onDisconnected s /\
     fst (on_gattserverdisconnected s w) = onDisconnected s).
Proof.
  repeat match goal with |- _ /\ _ => split end.
  - intros s w r Hact Hdev Hgatt.
    assert (E : effects (snd (snd (disconnect s w r))) =
       effects w ++
       [writeValue (TextEncoder_encode "S") r;
        if r then console_log_Sent "S" (commandCount s + 1)
        else console_error_SendFailed;
        gatt_disconnect]).
    { apply notConnected_Active in Hact.
      unfold disconnect, sendCommand, characteristic_writeValue.
      destruct (device s); [|congruence]. rewrite Hgatt, Hact.
      destruct r; cbn; now rewrite <- !app_assoc. }
    split; [apply disconnect_cleanup|]. split; [exact E|]. split.
    + rewrite E, writeAttempts_app. now destruct r.
    + unfold disconnect. destruct (device s); [|congruence]. rewrite Hgatt.
      pose proof (sendCommand_completion s w "S" r) as Hc.
      destruct (sendCommand s w "S" r) as [[|] [s1 w1]]; cbn in *;
        [reflexivity|discriminate].
  - intros s w. cbn. rewrite writeAttempts_app. cbn. now rewrite app_nil_r.
  - intros s w r. destruct (disconnect_cleanup s w r) as [H1 H2]. now repeat split.
Qed.

Lemma disconnect_paths_witness :
  writeAttempts
    (effects (snd (snd (disconnect (fst connected_at_1000)
                          (snd connected_at_1000) false)))) =
  writeAttempts (effects (snd connected_at_1000)) ++ [TextEncoder_encode "S"].
Proof.
  apply (proj1 disconnect_paths (fst connected_at_1000) (snd connected_at_1000)
           false connected_at_1000_Active).
  - cbn. congruence.
  - reflexivity.
Defined.

(** ** Session statistics *)

Lemma sendCommand_count_invariant s w cmd resolved :
  (isConnected s = false -> commandCount s = 0) ->
  isConnected (fst (snd (sendCommand s w cmd resolved))) = false ->
  commandCount (fst (snd (sendCommand s w cmd resolved))) = 0.
Proof.
  unfold sendCommand, characteristic_writeValue, notConnected.
  destruct (isConnected s) eqn:E, (characteristic s), resolved; cbn;
    intros H H'; auto; congruence.
Qed.

Lemma sendCommandThrottled_count_invariant s w cmd now resolved :
  (isConnected s = false -> commandCount s = 0) ->
  isConnected (fst (sendCommandThrottled s w cmd now resolved)) = false ->
  commandCount (fst (sendCommandThrottled s w cmd now resolved)) = 0.
Proof.
  intros H. unfold sendCommandThrottled.
  destruct (shouldSend s cmd now); [|exact H].
  pose proof (sendCommand_count_invariant s w cmd resolved H) as H'.
  destruct (snd (sendCommand s w cmd resolved)) as [s1 w1]. exact H'.
Qed.

(** While the session is not connected its command count is 0. *)
Lemma reachable_count sys :
  reachable sys -> isConnected (fst sys) = false -> commandCount (fst sys) = 0.
Proof.
  induction 1 as [rect | s w o now _ IH | s w r _ IH | s w _ IH | s w _ IH
                 | s w cmd r _ IH | s w cmd r _ IH | s w v r _ IH | s w r _ IH
                 | s w rect _ IH | s w rect _ IH
                 | atan2 cos sin s w x y now r _ IH | s w r _ IH | s w r _ IH];
    cbn [fst] in *.
  - reflexivity.
  - destruct o; cbn; try exact IH. discriminate.
  - intros _. now rewrite (proj2 (disconnect_cleanup s w r)).
  - reflexivity.
  - exact IH.
  - apply sendCommand_count_invariant, IH.
  - apply sendCommand_count_invariant, IH.
  - unfold speedSlider_input. apply sendCommand_count_invariant. exact IH.
  - apply sendCommand_count_invariant, IH.
  - exact IH.
  - exact IH.
  - unfold joystick_move, handleJoystickMove.
    destruct (joystickActive s); [|exact IH].
    apply sendCommandThrottled_count_invariant, IH.
  - unfold joystick_touchend, resetJoystick.
    apply sendCommand_count_invariant. exact IH.
  - unfold document_mouseup, resetJoystick.
    destruct (joystickActive s); [|exact IH].
    apply sendCommand_count_invariant. exact IH.
Qed.

(** Against C5 as stated: after connect at time 1000 and disconnect, the
    count is 0 but the recorded start time is still there. *)
Lemma disconnect_keeps_connectionStartTime :
  let s' := fst (snd (disconnect (fst connected_at_1000)
                        (snd connected_at_1000) true)) in
  isConnected s' = false /\ commandCount s' = 0 /\
  connectionStartTime s' = Some 1000 /\ connectionStartTime s' <> None.
Proof. cbn. repeat split. discriminate. Qed.

(** C5, as the code has it.  The cleanup reached from [disconnect()] and from
    link loss sets [commandCount] to 0 and [isConnected] to false and leaves
    [connectionStartTime] as it was.  A successful [connect()] records the
    time and leaves [commandCount] as it was; a failed one touches neither.
    In every reachable state that is not connected the count is 0, so it is 0
    when the session becomes Active. *)
Theorem session_stats :
  (forall s,
     commandCount (onDisconnected s) = 0 /\
     isConnected (onDisconnected s) = false /\
     connectionStartTime (onDisconnected s) = connectionStartTime s) /\
  (forall s w r,
     let s' := fst (snd (disconnect s w r)) in
     commandCount s' = 0 /\ isConnected s' = false /\
     connectionStartTime s' = connectionStartTime s) /\
  (forall s w,
     let s' := fst (on_gattserverdisconnected s w) in
     commandCount s' = 0 /\ isConnected s' = false /\
     connectionStartTime s' = connectionStartTime s) /\
  (forall s w d c now,
     let s' := fst (snd (connect s w (handshake_done d c) now)) in
     isConnected s' = true /\ connectionStartTime s' = Some now /\
     commandCount s' = commandCount s) /\
  (forall s w o now,
     (forall d c, o <> handshake_done d c) ->
     let s' := fst (snd (connect s w o now)) in
     isConnected s' = isConnected s /\
     connectionStartTime s' = connectionStartTime s /\
     commandCount s' = commandCount s) /\
  (forall s w o now,
     reachable (s, w) -> isConnected s = false ->
     commandCount (fst (snd (connect s w o now))) = 0).
Proof.
  repeat match goal with |- _ /\ _ => split end.
  - intros s. now repeat split.
  - intros s w r s'. subst s'.
    rewrite (proj2 (disconnect_cleanup s w r)). now repeat split.
  - intros s w. now repeat split.
  - intros s w d c now. now repeat split.
  - intros s w o now Ho. destruct o; cbn; try now repeat split.
    now specialize (Ho d c).
  - intros s w o now Hr Hc.
    pose proof (reachable_count (s, w) Hr Hc) as H0.
    destruct o; exact H0.
Qed.

Lemma session_stats_witness :
  commandCount
    (fst (snd (connect (new_RoverController
                          {| left := 0; top := 0; width := 260; height := 260 |})
                 initial_world (handshake_done rover ffe1) 1000))) = 0.
Proof.
  apply session_stats; [apply reach_new|reflexivity].
Defined.

(** ** The speed slider *)

Lemma speed_checks_range : forallb speed_checks (map Z.of_nat (seq 0 101)) = true.
Proof. vm_compute. reflexivity. Qed.

Lemma speed_checks_percent p : 0 <= p <= 100 -> speed_checks p = true.
Proof.
  intros Hp. pose proof speed_checks_range as H.
  rewrite forallb_forall in H. apply H.
  rewrite <- (Z2Nat.id p) by lia. apply in_map, in_seq. lia.
Qed.

(** C6.  For a percent p from 0 to 100 the slider computes the integer n
    nearest to p / 100 * 255 (the larger one on a tie, so 127.5 gives 128 and
    2.55 gives 3, not 2), n is a byte, and the command is [SPEED:] followed by
    the decimal digits of n: digits only, no leading zero.  On an Active
    session whose write resolves these are the bytes transmitted.  For 50 the
    command is "SPEED:128". *)
Theorem speedSlider_wire :
  (forall p, 0 <= p <= 100 ->
     exists n,
       speedByte p = Int n /\
       -50 < 100 * n - 255 * p <= 50 /\
       0 <= n <= 255 /\
       speedCommand p = String.append "SPEED:" (Number_toString (Int n)) /\
       decimal_of (Number_toString (Int n)) n = true) /\
  (forall s w p,
     Active s ->
     transmitted (effects (snd (speedSlider_input s w p true))) =
       transmitted (effects w) ++ [TextEncoder_encode (speedCommand p)]) /\
  speedByte 1 = Int 3 /\
  speedByte 50 = Int 128 /\
  speedCommand 50 = "SPEED:128" /\
  TextEncoder_encode (speedCommand 50) =
    [Byte.x53; Byte.x50; Byte.x45; Byte.x45; Byte.x44; Byte.x3a;
     Byte.x31; Byte.x32; Byte.x38].
Proof.
  split; [|split; [|repeat split; vm_compute; reflexivity]].
  - intros p Hp. pose proof (speed_checks_percent p Hp) as H.
    unfold speed_checks in H. unfold speedCommand.
    destruct (speedByte p) as [n| |]; try discriminate.
    exists n. unfold nearest_byte in H.
    repeat (apply andb_prop in H; destruct H as [H ?]).
    repeat split; try lia; assumption.
  - intros s w p Hact. unfold speedSlider_input.
    exact (sendCommand_transmits (set_currentSpeed p s) w _ Hact).
Qed.

Lemma speedSlider_wire_witness :
  exists n,
    speedByte 50 = Int n /\
    -50 < 100 * n - 255 * 50 <= 50 /\
    0 <= n <= 255 /\
    speedCommand 50 = String.append "SPEED:" (Number_toString (Int n)) /\
    decimal_of (Number_toString (Int n)) n = true.
Proof.
  apply (proj1 speedSlider_wire 50). lia.
Defined.

(** X22.  In every reachable state the throttle delay is the constructor's
    100 ms: nothing reassigns it. *)
Lemma reachable_commandDelay sys :
  reachable sys -> commandDelay (fst sys) = 100.
Proof.
  assert (Hsend : forall s w cmd r,
            commandDelay (fst (snd (sendCommand s w cmd r))) = commandDelay s).
  { intros. apply sendCommand_frame. }
  induction 1 as [rect | s w o now _ IH | s w r _ IH | s w _ IH | s w _ IH
                 | s w cmd r _ IH | s w cmd r _ IH | s w v r _ IH | s w r _ IH
                 | s w rect _ IH | s w rect _ IH
                 | atan2 cos sin s w x y now r _ IH | s w r _ IH | s w r _ IH];
    cbn [fst] in *;
    unfold arrowBtn_touchstart, arrowBtn_click, speedSlider_input,
      emergencyStop_click, emergencyStop, joystick_touchend, document_mouseup,
      resetJoystick, joystick_move, handleJoystickMove;
    try (destruct (joystickActive s); [|exact IH]);
    rewrite ?Hsend; try exact IH.
  - reflexivity.
  - destruct o; exact IH.
  - now rewrite (proj2 (disconnect_cleanup s w r)).
  - match goal with
    | |- context [sendCommandThrottled s ?w1 ?c now r] =>
        destruct (shouldSend s c now) eqn:E;
        [rewrite (sendCommandThrottled_accept s w1 c now r E); cbn;
         rewrite Hsend; exact IH
        |now rewrite (sendCommandThrottled_reject s w1 c now r E)]
    end.
Qed.

(** ** Events and reachable states *)

Lemma run_app inputs inputs' sys :
  run (inputs ++ inputs') sys = run inputs' (run inputs sys).
Proof. apply fold_left_app. Qed.

Lemma reachable_handle i sys : reachable sys -> reachable (handle i sys).
Proof.
  destruct sys as [s w]. intros H. destruct i; cbn [handle];
    constructor; exact H.
Qed.

Lemma reachable_run inputs sys : reachable sys -> reachable (run inputs sys).
Proof.
  revert sys. induction inputs as [|i inputs IH]; intros sys H; [exact H|].
  change (reachable (run inputs (handle i sys))). now apply IH, reachable_handle.
Qed.

(** Every reachable state is the outcome of some events on a new controller. *)
Lemma reachable_is_run sys :
  reachable sys ->
  exists rect inputs, sys = run inputs (new_RoverController rect, initial_world).
Proof.
  assert (Hsnoc : forall rect inputs i,
            handle i (run inputs (new_RoverController rect, initial_world)) =
            run (inputs ++ [i]) (new_RoverController rect, initial_world)).
  { intros. now rewrite run_app. }
  induction 1 as [rect | s w o now _ IH | s w r _ IH | s w _ IH | s w _ IH
                 | s w cmd r _ IH | s w cmd r _ IH | s w v r _ IH | s w r _ IH
                 | s w rect' _ IH | s w rect' _ IH
                 | atan2 cos sin s w x y now r _ IH | s w r _ IH | s w r _ IH];
    [exists rect, []; reflexivity| | | | | | | | | | | | | ];
    destruct IH as (rect & inputs & E).
  - exists rect, (inputs ++ [ev_connect o now]). now rewrite <- Hsnoc, <- E.
  - exists rect, (inputs ++ [ev_disconnect r]). now rewrite <- Hsnoc, <- E.
  - exists rect, (inputs ++ [ev_gattserverdisconnected]). now rewrite <- Hsnoc, <- E.
  - exists rect, (inputs ++ [ev_link_down]). now rewrite <- Hsnoc, <- E.
  - exists rect, (inputs ++ [ev_arrow_touchstart cmd r]). now rewrite <- Hsnoc, <- E.
  - exists rect, (inputs ++ [ev_arrow_click cmd r]). now rewrite <- Hsnoc, <- E.
  - exists rect, (inputs ++ [ev_speed v r]). now rewrite <- Hsnoc, <- E.
  - exists rect, (inputs ++ [ev_emergencyStop r]). now rewrite <- Hsnoc, <- E.
  - exists rect, (inputs ++ [ev_resize rect']). now rewrite <- Hsnoc, <- E.
  - exists rect, (inputs ++ [ev_joystick_press rect']). now rewrite <- Hsnoc, <- E.
  - exists rect, (inputs ++ [ev_joystick_move atan2 cos sin x y now r]).
    now rewrite <- Hsnoc, <- E.
  - exists rect, (inputs ++ [ev_joystick_touchend r]). now rewrite <- Hsnoc, <- E.
  - exists rect, (inputs ++ [ev_mouseup r]). now rewrite <- Hsnoc, <- E.
Qed.

(** A property kept by every event holds in every reachable state. *)
Lemma reachable_ind_handle (P : System -> Prop) :
  (forall rect, P (new_RoverController rect, initial_world)) ->
  (forall i sys, P sys -> P (handle i sys)) ->
  forall sys, reachable sys -> P sys.
Proof.
  intros Hnew Hstep sys H.
  destruct (reachable_is_run sys H) as (rect & inputs & ->). clear H.
  generalize (Hnew rect). generalize (new_RoverController rect, initial_world).
  induction inputs as [|i inputs IH]; intros sys0 H0; [exact H0|].
  change (P (run inputs (handle i sys0))). apply IH. now apply Hstep.
Qed.

(** Opening every listener down to the branches of [sendCommand]. *)
Ltac open_handlers :=
  unfold handle, arrowBtn_touchstart, arrowBtn_click, speedSlider_input,
    emergencyStop_click, emergencyStop, joystick_touchend, document_mouseup,
    resetJoystick, joystick_move, handleJoystickMove, on_gattserverdisconnected,
    disconnect, sendCommandThrottled, sendCommand, characteristic_writeValue.

Ltac split_branches :=
  repeat match goal with
  | |- context [if ?b then Normal else Throw] => destruct b
  | |- context [if ?b then _ else _] => destruct b eqn:?
  | |- context [match ?x with Some _ => _ | None => _ end] => destruct x eqn:?
  end.

(** ** Invariants of the session *)

(** X1.  Whenever [isConnected] is true the controller holds a device and a
    characteristic and has a start time: a connected session is Active. *)
Theorem reachable_connected_session sys :
  reachable sys ->
  isConnected (fst sys) = true ->
  device (fst sys) <> None /\ characteristic (fst sys) <> None /\
  connectionStartTime (fst sys) <> None.
Proof.
  revert sys.
  apply (reachable_ind_handle (fun sys =>
    isConnected (fst sys) = true ->
    device (fst sys) <> None /\ characteristic (fst sys) <> None /\
    connectionStartTime (fst sys) <> None)).
  - intros rect. cbn. discriminate.
  - intros i [s w] IH. cbn [fst] in IH.
    destruct i; try destruct o; open_handlers; split_branches; cbn;
      intros H; try discriminate H;
      try (destruct (IH H) as (?&?&?));
      repeat split; (assumption || discriminate).
Qed.

Lemma reachable_connected_session_witness :
  device (fst connected_at_1000) <> None /\
  characteristic (fst connected_at_1000) <> None /\
  connectionStartTime (fst connected_at_1000) <> None.
Proof.
  apply (reachable_connected_session connected_at_1000).
  - unfold connected_at_1000. apply reach_connect.
    exact (reach_new {| left := -130; top := -130; width := 260; height := 260 |}).
  - reflexivity.
Defined.

Lemma run_cons i inputs sys : run (i :: inputs) sys = run inputs (handle i sys).
Proof. reflexivity. Qed.

Ltac count_effects :=
  rewrite ?transmitted_app, ?writeAttempts_app, ?List.length_app; cbn;
  rewrite ?app_nil_r, ?List.length_app; cbn.

(** X2.  The command count is never negative and never exceeds the number of
    writes that have resolved. *)
Theorem reachable_count_bounds sys :
  reachable sys ->
  0 <= commandCount (fst sys) <=
    Z.of_nat (List.length (transmitted (effects (snd sys)))).
Proof.
  revert sys.
  apply (reachable_ind_handle (fun sys =>
    0 <= commandCount (fst sys) <=
      Z.of_nat (List.length (transmitted (effects (snd sys)))))).
  - intros rect. cbn. lia.
  - intros i [s w] IH. cbn [fst snd] in IH.
    destruct i; try destruct o; open_handlers; split_branches; cbn;
      count_effects; lia.
Qed.

(** One event that is not a teardown raises the count by the number of
    writes it got resolved. *)
Lemma handle_counts i s w :
  is_teardown i = false ->
  commandCount (fst (handle i (s, w))) - commandCount s =
  Z.of_nat (List.length (transmitted (effects (snd (handle i (s, w)))))) -
  Z.of_nat (List.length (transmitted (effects w))).
Proof.
  destruct i; try discriminate; intros _;
    try destruct o; open_handlers; split_branches; cbn; count_effects; lia.
Qed.

(** X3.  Over any events without [disconnect()] and without link loss, the
    command count grows by exactly the number of writes that resolved. *)
Theorem run_counts_transmissions inputs sys :
  existsb is_teardown inputs = false ->
  commandCount (fst (run inputs sys)) - commandCount (fst sys) =
  Z.of_nat (List.length (transmitted (effects (snd (run inputs sys))))) -
  Z.of_nat (List.length (transmitted (effects (snd sys)))).
Proof.
  revert sys.
  induction inputs as [|i inputs IH]; intros [s w] H; [cbn; lia|].
  cbn [existsb] in H. apply orb_false_iff in H. destruct H as [Hi H].
  rewrite run_cons. specialize (IH (handle i (s, w)) H).
  pose proof (handle_counts i s w Hi). cbn [fst snd] in *. lia.
Qed.

(** ** What reaches the transport *)

Lemma handle_disconnected i s w :
  is_handshake i = false ->
  isConnected s = false ->
  isConnected (fst (handle i (s, w))) = false /\
  writeAttempts (effects (snd (handle i (s, w)))) = writeAttempts (effects w).
Proof.
  intros Hi Hc.
  destruct i; try destruct o; try discriminate Hi;
    open_handlers; unfold notConnected; cbn; rewrite ?Hc; cbn;
    split_branches; cbn; count_effects; split; (reflexivity || assumption).
Qed.

(** X4.  While the session is not connected, no event other than a
    completed [connect()] connects it or hands anything to the transport. *)
Theorem disconnected_is_silent inputs sys :
  existsb is_handshake inputs = false ->
  isConnected (fst sys) = false ->
  isConnected (fst (run inputs sys)) = false /\
  writeAttempts (effects (snd (run inputs sys))) =
    writeAttempts (effects (snd sys)).
Proof.
  revert sys.
  induction inputs as [|i inputs IH]; intros [s w] H Hc; [now split|].
  cbn [existsb] in H. apply orb_false_iff in H. destruct H as [Hi H].
  destruct (handle_disconnected i s w Hi Hc) as [Hc1 Hw1].
  rewrite run_cons. destruct (IH (handle i (s, w)) H Hc1) as [Hc2 Hw2].
  split; [exact Hc2|]. now rewrite Hw2, Hw1.
Qed.

Lemma disconnected_is_silent_witness :
  writeAttempts
    (effects (snd (run [ev_arrow_click "F" true; ev_speed 80 true;
                        ev_emergencyStop true; ev_disconnect true]
                     (constructor, initial_world)))) = [].
Proof.
  apply (disconnected_is_silent
           [ev_arrow_click "F" true; ev_speed 80 true;
            ev_emergencyStop true; ev_disconnect true]
           (constructor, initial_world)); reflexivity.
Defined.

Lemma handle_appends i s w :
  exists l,
    effects (snd (handle i (s, w))) = effects w ++ l /\
    (List.length (writeAttempts l) <= 1)%nat.
Proof.
  destruct i; try destruct o; open_handlers; split_branches; cbn;
    first [ exists []; split; [symmetry; apply app_nil_r|cbn; lia]
          | rewrite <- ?app_assoc; eexists; split; [reflexivity|cbn; lia] ].
Qed.

(** X5.  Events only add to the log of effects, and each event hands the
    transport at most one payload: n events make at most n write attempts. *)
Theorem run_appends inputs sys :
  exists l,
    effects (snd (run inputs sys)) = effects (snd sys) ++ l /\
    (List.length (writeAttempts l) <= List.length inputs)%nat.
Proof.
  revert sys.
  induction inputs as [|i inputs IH]; intros [s w].
  - exists []. split; [symmetry; apply app_nil_r|cbn; lia].
  - rewrite run_cons. destruct (handle_appends i s w) as (l1 & E1 & H1).
    destruct (IH (handle i (s, w))) as (l2 & E2 & H2).
    exists (l1 ++ l2). split.
    + rewrite E2, E1. cbn [snd]. now rewrite app_assoc.
    + rewrite writeAttempts_app, List.length_app. cbn [List.length]. lia.
Qed.

(** ** The direction shown *)

Lemma handle_direction i s w :
  protocol_input i = true ->
  is_teardown i = false ->
  (transmitted (effects (snd (handle i (s, w)))) = transmitted (effects w) /\
   currentDirection (fst (handle i (s, w))) = currentDirection s) \/
  (exists cmd,
     transmitted (effects (snd (handle i (s, w)))) =
       transmitted (effects w) ++ [TextEncoder_encode cmd] /\
     currentDirection (fst (handle i (s, w))) = directionLabel cmd).
Proof.
  intros _.
  destruct i; try discriminate; intros _;
    try destruct o; open_handlers; split_branches;
    cbn -[TextEncoder_encode speedCommand joystickCommand];
    rewrite ?transmitted_app; cbn -[TextEncoder_encode speedCommand joystickCommand];
    rewrite ?app_nil_r;
    first [ left; split; reflexivity
          | right; eexists; split; reflexivity ].
Qed.

(** X6.  Over any events without [disconnect()] and without link loss, in
    which every arrow button carries one of the commands F, B, L, R, S:
    either nothing was transmitted and the direction shown is the one from
    before, or the direction shown is the label of the last command
    transmitted. *)
Theorem direction_of_last_transmitted inputs sys :
  forallb protocol_input inputs = true ->
  existsb is_teardown inputs = false ->
  (transmitted (effects (snd (run inputs sys))) =
     transmitted (effects (snd sys)) /\
   currentDirection (fst (run inputs sys)) = currentDirection (fst sys)) \/
  (exists earlier cmd,
     transmitted (effects (snd (run inputs sys))) =
       earlier ++ [TextEncoder_encode cmd] /\
     currentDirection (fst (run inputs sys)) = directionLabel cmd).
Proof.
  revert sys.
  induction inputs as [|i inputs IH]; intros [s w] Hp H; [left; now split|].
  cbn [forallb] in Hp. apply andb_prop in Hp. destruct Hp as [Hpi Hp].
  cbn [existsb] in H. apply orb_false_iff in H. destruct H as [Hi H].
  rewrite run_cons.
  destruct (IH (handle i (s, w)) Hp H) as [[Ht Hd]|(earlier & cmd & Ht & Hd)].
  - destruct (handle_direction i s w Hpi Hi) as [[Ht1 Hd1]|(cmd & Ht1 & Hd1)].
    + left. cbn [fst snd]. split; congruence.
    + right. exists (transmitted (effects w)), cmd. split; congruence.
  - right. now exists earlier, cmd.
Qed.

Lemma direction_of_last_transmitted_witness :
  (transmitted (effects (snd (run [ev_arrow_click "F" true; ev_speed 80 false]
                                connected_at_1000))) =
     transmitted (effects (snd connected_at_1000)) /\
   currentDirection (fst (run [ev_arrow_click "F" true; ev_speed 80 false]
                            connected_at_1000)) =
     currentDirection (fst connected_at_1000)) \/
  (exists earlier cmd,
     transmitted (effects (snd (run [ev_arrow_click "F" true; ev_speed 80 false]
                                  connected_at_1000))) =
       earlier ++ [TextEncoder_encode cmd] /\
     currentDirection (fst (run [ev_arrow_click "F" true; ev_speed 80 false]
                              connected_at_1000)) = directionLabel cmd).
Proof.
  apply (direction_of_last_transmitted
           [ev_arrow_click "F" true; ev_speed 80 false] connected_at_1000);
    reflexivity.
Defined.

(** ** Runs of the throttle *)

Lemma sendCommandThrottled_accepted_state s w cmd now r :
  shouldSend s cmd now = true ->
  let s1 := fst (sendCommandThrottled s w cmd now r) in
  lastCommand s1 = cmd /\ lastCommandTime s1 = now /\
  commandDelay s1 = commandDelay s /\ (Active s -> Active s1).
Proof.
  intros H. rewrite (sendCommandThrottled_accept _ _ _ _ _ H). cbn.
  destruct (sendCommand_frame s w cmd r) as (_&Hc&Hi&_&_&_&_&_&_&_&Hd).
  repeat split; try assumption.
  - unfold Active in *. cbn. now rewrite Hi.
  - unfold Active in *. cbn. now rewrite Hc.
Qed.

(** X7.  In a series of throttled calls in which every command differs from
    the one before it (the first from the last recorded command), every call
    is accepted whatever the times; on an Active session whose writes all
    resolve, every command is transmitted, in order. *)
Theorem changes_always_pass calls s w :
  each_differs (lastCommand s) calls ->
  fst (throttled_calls s w calls) = map (fun _ => true) calls /\
  (Active s -> forallb (fun call => snd call) calls = true ->
   transmitted (effects (snd (snd (throttled_calls s w calls)))) =
     transmitted (effects w) ++
     map (fun call => TextEncoder_encode (fst (fst call))) calls).
Proof.
  revert s w. induction calls as [|[[cmd now] r] calls IH]; intros s w H.
  - split; [reflexivity|]. intros _ _. cbn. now rewrite app_nil_r.
  - destruct H as [Hne H]. cbn [throttled_calls].
    assert (Hs : shouldSend s cmd now = true) by (apply shouldSend_spec; now left).
    pose proof (sendCommandThrottled_accepted_state s w cmd now r Hs)
      as (Hl & _ & _ & Hact).
    pose proof (sendCommandThrottled_accept s w cmd now r Hs) as Ew.
    destruct (sendCommandThrottled s w cmd now r) as [s1 w1].
    cbn [fst snd] in *. rewrite <- Hl in H.
    destruct (IH s1 w1 H) as [Hf Ht].
    destruct (throttled_calls s1 w1 calls) as [flags sys]. cbn [fst snd] in *.
    split; [now rewrite Hs, Hf|].
    intros Ha Hr. cbn [forallb snd] in Hr. apply andb_prop in Hr.
    destruct Hr as [-> Hr]. rewrite (Ht (Hact Ha) Hr).
    injection Ew as _ ->. rewrite (sendCommand_transmits s w cmd Ha).
    cbn [map fst]. now rewrite <- app_assoc.
Qed.

Lemma changes_always_pass_witness :
  fst (throttled_calls constructor initial_world
         [("F", 0, true); ("R", 0, true); ("F", 0, true)]) =
  [true; true; true].
Proof.
  apply (changes_always_pass [("F", 0, true); ("R", 0, true); ("F", 0, true)]
           constructor initial_world).
  cbn. repeat split; discriminate.
Defined.

Lemma accepted_times_spaced c calls s w :
  (forall call, In call calls -> fst (fst call) = c) ->
  spaced (commandDelay s) (accepted_times s w calls) /\
  (lastCommand s = c ->
   spaced (commandDelay s) (lastCommandTime s :: accepted_times s w calls)).
Proof.
  revert s w. induction calls as [|[[cmd now] r] calls IH]; intros s w Hall.
  - cbn. tauto.
  - assert (cmd = c) as -> by exact (Hall _ (or_introl eq_refl)).
    assert (Hall' : forall call, In call calls -> fst (fst call) = c)
      by (intros call Hin; apply Hall; now right).
    cbn [accepted_times].
    destruct (shouldSend s c now) eqn:Hs.
    + pose proof (sendCommandThrottled_accepted_state s w c now r Hs)
        as (Hl & Ht & Hd & _).
      destruct (sendCommandThrottled s w c now r) as [s1 w1].
      cbn [fst] in *. destruct (IH s1 w1 Hall') as [_ IH2].
      specialize (IH2 Hl). rewrite Ht, Hd in IH2.
      split; [exact IH2|].
      intros Hc. split; [|exact IH2].
      apply shouldSend_spec in Hs. destruct Hs as [Hs|Hs]; [congruence|lia].
    + rewrite (sendCommandThrottled_reject s w c now r Hs).
      exact (IH s w Hall').
Qed.

(** X8.  In a series of throttled calls that all carry the same command, any
    two accepted calls that follow one another are more than [commandDelay]
    apart. *)
Theorem repeats_are_spaced c calls s w :
  (forall call, In call calls -> fst (fst call) = c) ->
  spaced (commandDelay s) (accepted_times s w calls).
Proof. intros H. now apply (accepted_times_spaced c). Qed.

Lemma repeats_are_spaced_witness :
  spaced 100
    (accepted_times constructor initial_world
       [("F", 1000, true); ("F", 1050, true); ("F", 1100, false);
        ("F", 1101, true); ("F", 1300, true)]).
Proof.
  apply (repeats_are_spaced "F"
           [("F", 1000, true); ("F", 1050, true); ("F", 1100, false);
            ("F", 1101, true); ("F", 1300, true)] constructor initial_world).
  cbn. intros call H.
  repeat (destruct H as [<-|H]; [reflexivity|]). destruct H.
Defined.

(** X9.  A throttled command whose write is rejected is still recorded: the
    same command within [commandDelay] of it is not handed to the transport
    again, and once more than [commandDelay] has passed it is. *)
Theorem dropped_command_not_retried s w cmd now :
  Active s -> shouldSend s cmd now = true ->
  let '(s1, w1) := sendCommandThrottled s w cmd now false in
  writeAttempts (effects w1) = writeAttempts (effects w) ++ [TextEncoder_encode cmd] /\
  transmitted (effects w1) = transmitted (effects w) /\
  (forall now' r, now' - now <= commandDelay s ->
     sendCommandThrottled s1 w1 cmd now' r = (s1, w1)) /\
  (forall now', now' - now > commandDelay s ->
     transmitted (effects (snd (sendCommandThrottled s1 w1 cmd now' true))) =
       transmitted (effects w) ++ [TextEncoder_encode cmd]).
Proof.
  intros Ha Hs.
  pose proof (sendCommandThrottled_accepted_state s w cmd now false Hs)
    as (Hl & Ht & Hd & Hact).
  pose proof (sendCommandThrottled_accept s w cmd now false Hs) as Ew.
  pose proof Ha as Hn. apply notConnected_Active in Hn.
  assert (Esend : sendCommand s w cmd false =
    (Normal, (s, emit console_error_SendFailed
                   (emit (writeValue (TextEncoder_encode cmd) false) w)))).
  { unfold sendCommand. rewrite Hn. reflexivity. }
  rewrite Esend in Ew. cbn [fst snd] in Ew.
  destruct (sendCommandThrottled s w cmd now false) as [s1 w1].
  cbn [fst] in *. injection Ew as Es Ew. specialize (Hact Ha).
  assert (Tw : transmitted (effects w1) = transmitted (effects w)).
  { rewrite Ew. cbn. rewrite !transmitted_app. cbn. now rewrite !app_nil_r. }
  repeat split.
  - rewrite Ew. cbn. rewrite !writeAttempts_app. cbn. now rewrite app_nil_r.
  - exact Tw.
  - intros now' r Hclose. apply sendCommandThrottled_reject.
    unfold shouldSend. rewrite Hl, Ht, Hd, String.eqb_refl. cbn.
    apply Z.ltb_ge. lia.
  - intros now' Hlate.
    assert (Hs' : shouldSend s1 cmd now' = true).
    { apply shouldSend_spec. right. rewrite Ht, Hd. lia. }
    rewrite (sendCommandThrottled_accept _ _ _ _ _ Hs'). cbn [snd].
    now rewrite (sendCommand_transmits s1 w1 cmd Hact), Tw.
Qed.

Lemma dropped_command_not_retried_witness :
  let '(s1, w1) :=
    sendCommandThrottled (fst connected_at_1000) (snd connected_at_1000)
      "F" 2000 false in
  sendCommandThrottled s1 w1 "F" 2100 true = (s1, w1).
Proof.
  pose proof (dropped_command_not_retried (fst connected_at_1000)
                (snd connected_at_1000) "F" 2000 connected_at_1000_Active
                eq_refl) as H.
  destruct (sendCommandThrottled (fst connected_at_1000)
              (snd connected_at_1000) "F" 2000 false) as [s1 w1].
  destruct H as (_ & _ & H & _). apply H. cbn. lia.
Defined.

(** ** Unthrottled stops *)

(** X10.  The emergency stop transmits "S" and shows "Stopped" but leaves the
    throttle as it was: the joystick's last command is still suppressed while
    its window lasts, and once the window is over the next move transmits it
    again, after the stop. *)
Theorem emergencyStop_does_not_latch s w c now :
  Active s -> lastCommand s = c ->
  let '(s1, w1) := emergencyStop_click s w true in
  transmitted (effects w1) = transmitted (effects w) ++ [TextEncoder_encode "S"] /\
  currentDirection s1 = "Stopped" /\
  (now - lastCommandTime s <= commandDelay s ->
   sendCommandThrottled s1 w1 c now true = (s1, w1)) /\
  (now - lastCommandTime s > commandDelay s ->
   transmitted (effects (snd (sendCommandThrottled s1 w1 c now true))) =
     transmitted (effects w) ++ [TextEncoder_encode "S"; TextEncoder_encode c] /\
   currentDirection (fst (sendCommandThrottled s1 w1 c now true)) =
     directionLabel c).
Proof.
  intros Ha Hc. unfold emergencyStop_click, emergencyStop.
  pose proof (sendCommand_transmits s w "S" Ha) as Ht.
  pose proof (sendCommand_Active s w "S" true Ha) as Ha1.
  pose proof (sendCommand_frame s w "S" true) as (_&_&_&_&_&_&_&_&Hl&Hlt&Hd).
  assert (Hdir : currentDirection (fst (snd (sendCommand s w "S" true))) = "Stopped")
    by (rewrite (sendCommand_resolved s w "S" Ha); reflexivity).
  destruct (snd (sendCommand s w "S" true)) as [s1 w1]. cbn [fst snd] in *.
  repeat split; try assumption.
  - intros Hclose. apply sendCommandThrottled_reject.
    unfold shouldSend. rewrite Hl, Hlt, Hd, Hc, String.eqb_refl. cbn.
    apply Z.ltb_ge. lia.
  - assert (Hs : shouldSend s1 c now = true)
      by (apply shouldSend_spec; right; rewrite Hlt, Hd; lia).
    rewrite (sendCommandThrottled_accept _ _ _ _ _ Hs). cbn [snd].
    rewrite (sendCommand_transmits s1 w1 c Ha1), Ht. now rewrite <- app_assoc.
  - assert (Hs : shouldSend s1 c now = true)
      by (apply shouldSend_spec; right; rewrite Hlt, Hd; lia).
    rewrite (sendCommandThrottled_accept _ _ _ _ _ Hs). cbn [fst].
    rewrite (sendCommand_resolved s1 w1 c Ha1). reflexivity.
Qed.

Lemma emergencyStop_does_not_latch_witness :
  let '(s0, w0) :=
    sendCommandThrottled (fst connected_at_1000) (snd connected_at_1000)
      "F" 2000 true in
  let '(s1, w1) := emergencyStop_click s0 w0 true in
  sendCommandThrottled s1 w1 "F" 2050 true = (s1, w1).
Proof.
  destruct (sendCommandThrottled (fst connected_at_1000)
              (snd connected_at_1000) "F" 2000 true) as [s0 w0] eqn:E.
  vm_compute in E. injection E as <- <-.
  match goal with
  | |- let '(s1, w1) := emergencyStop_click ?s ?w true in _ =>
      pose proof (emergencyStop_does_not_latch s w "F" 2050) as H;
      destruct (emergencyStop_click s w true) as [s1 w1]
  end.
  apply H; [split; cbn; congruence|reflexivity|cbn; lia].
Defined.

(** X11.  Releasing the joystick on an Active session whose write resolves
    transmits "S" whatever the throttle holds, puts the knob back, leaves the
    throttle state alone, and switches the joystick off: until the next
    press, moves do nothing. *)
Theorem release_sends_Stop s w :
  Active s ->
  let '(s1, w1) := joystick_touchend s w true in
  transmitted (effects w1) = transmitted (effects w) ++ [TextEncoder_encode "S"] /\
  joystick_transform w1 = (0%float, 0%float) /\
  throttleState s1 = throttleState s /\
  joystickActive s1 = false /\
  (forall atan2 cos sin x y now r,
     joystick_move atan2 cos sin s1 w1 x y now r = (s1, w1)).
Proof.
  intros Ha. unfold joystick_touchend, resetJoystick.
  set (s0 := set_joystickActive false s).
  set (w0 := set_joystick_transform (0%float, 0%float) w).
  assert (Ha0 : Active s0) by exact Ha.
  pose proof (sendCommand_transmits s0 w0 "S" Ha0) as Ht.
  pose proof (sendCommand_frame s0 w0 "S" true) as (_&_&_&_&_&Hj&_&_&Hl&Hlt&_).
  pose proof (sendCommand_world s0 w0 "S" true) as (_ & Hk).
  destruct (snd (sendCommand s0 w0 "S" true)) as [s1 w1]. cbn [fst snd] in *.
  repeat split; try assumption.
  - unfold throttleState. now rewrite Hl, Hlt.
  - intros. unfold joystick_move. now rewrite Hj.
Qed.

Lemma release_sends_Stop_witness :
  let '(s1, w1) :=
    joystick_touchend (fst connected_at_1000) (snd connected_at_1000) true in
  transmitted (effects w1) =
    transmitted (effects (snd connected_at_1000)) ++ [TextEncoder_encode "S"].
Proof.
  pose proof (release_sends_Stop (fst connected_at_1000) (snd connected_at_1000)
                connected_at_1000_Active) as H.
  destruct (joystick_touchend (fst connected_at_1000) (snd connected_at_1000) true)
    as [s1 w1].
  apply H.
Defined.

(** ** The commands of the joystick *)

(** X12.  Whatever the distance and the angle (NaN included), the joystick
    command is one of S, R, B, F, L; it encodes to exactly one byte and has a
    label of its own in [dirMap]. *)
Theorem joystickCommand_range distance angle :
  In (joystickCommand distance angle) ["S"; "R"; "B"; "F"; "L"] /\
  List.length (TextEncoder_encode (joystickCommand distance angle)) = 1%nat /\
  dirMap (joystickCommand distance angle) <> None.
Proof.
  unfold joystickCommand.
  destruct (distance <? threshold)%float,
           (((-45) <=? angle)%float && (angle <? 45)%float),
           ((45 <=? angle)%float && (angle <? 135)%float),
           (((-135) <=? angle)%float && (angle <? (-45))%float);
    cbn; repeat split; try discriminate; tauto.
Qed.

Lemma SFcompare_refl x : x <> S754_nan -> SFcompare x x = Some Eq.
Proof.
  destruct x as [sx|sx| |sx mx ex]; cbn; intros H; try congruence;
    try (now destruct sx).
  change (Pos.compare_cont Eq mx mx) with (Pos.compare mx mx).
  rewrite Z.compare_refl, Pos.compare_refl. now destruct sx.
Qed.

Lemma is_nan_true_Prim2SF x : is_nan x = true -> Prim2SF x = S754_nan.
Proof.
  unfold is_nan. rewrite FloatAxioms.eqb_spec. unfold SFeqb. intros H.
  destruct (Prim2SF x) as [sx|sx| |sx mx ex] eqn:E; try reflexivity;
    rewrite SFcompare_refl in H; discriminate.
Qed.

Lemma nan_compares_false x c :
  is_nan x = true ->
  (x <? c)%float = false /\ (c <=? x)%float = false.
Proof.
  intros H. apply is_nan_true_Prim2SF in H.
  rewrite FloatAxioms.ltb_spec, FloatAxioms.leb_spec. unfold SFltb, SFleb.
  rewrite H. split; [reflexivity|]. now destruct (Prim2SF c).
Qed.

(** X13.  A NaN distance is not inside the deadzone: the command is never
    Stop.  Outside the deadzone a NaN angle gives Left. *)
Theorem joystickCommand_NaN distance angle :
  (is_nan distance = true -> joystickCommand distance angle <> "S") /\
  (is_nan angle = true -> (distance <? 30)%float = false ->
   joystickCommand distance angle = "L").
Proof.
  unfold joystickCommand, threshold. split.
  - intros H. destruct (nan_compares_false distance 30 H) as [-> _].
    destruct (((-45) <=? angle)%float && (angle <? 45)%float),
             ((45 <=? angle)%float && (angle <? 135)%float),
             (((-135) <=? angle)%float && (angle <? (-45))%float);
      discriminate.
  - intros H ->.
    destruct (nan_compares_false angle 45 H) as [-> ->].
    destruct (nan_compares_false angle (-45) H) as [-> ->].
    destruct (nan_compares_false angle 135 H) as [-> _].
    now rewrite !andb_false_r.
Qed.

Lemma joystickCommand_NaN_witness :
  joystickCommand nan 0 <> "S" /\ joystickCommand 50 nan = "L".
Proof.
  destruct (joystickCommand_NaN nan 0) as [H1 _].
  destruct (joystickCommand_NaN 50 nan) as [_ H2].
  split; [apply H1; reflexivity|apply H2; reflexivity].
Defined.

(** ** More on the speed slider *)

Lemma in_percent_range p : 0 <= p <= 100 -> In p (map Z.of_nat (seq 0 101)).
Proof.
  intros Hp. rewrite <- (Z2Nat.id p) by lia. apply in_map, in_seq. lia.
Qed.

Lemma speed_order_range :
  forallb (fun p => forallb (speed_order_check p) (map Z.of_nat (seq 0 101)))
    (map Z.of_nat (seq 0 101)) = true.
Proof. vm_compute. reflexivity. Qed.

(** X14.  On 0..100 the speed byte grows strictly with the percent, from 0 at
    0 to 255 at 100, so different percents give different commands. *)
Theorem speedByte_increasing :
  (forall p q, 0 <= p -> p < q -> q <= 100 ->
     exists m n,
       speedByte p = Int m /\ speedByte q = Int n /\ m < n /\
       speedCommand p <> speedCommand q) /\
  speedByte 0 = Int 0 /\ speedByte 100 = Int 255.
Proof.
  split; [|split; vm_compute; reflexivity].
  intros p q Hp Hpq Hq.
  pose proof speed_order_range as H. rewrite forallb_forall in H.
  specialize (H p (in_percent_range p ltac:(lia))).
  rewrite forallb_forall in H.
  specialize (H q (in_percent_range q ltac:(lia))).
  unfold speed_order_check in H.
  apply Z.ltb_lt in Hpq. rewrite Hpq in H.
  destruct (speedByte p) as [m| |], (speedByte q) as [n| |]; try discriminate.
  apply andb_prop in H. destruct H as [H1 H2].
  exists m, n. repeat split; [lia|].
  apply negb_true_iff in H2. now apply String.eqb_neq.
Qed.

Lemma speedByte_increasing_witness :
  exists m n,
    speedByte 49 = Int m /\ speedByte 50 = Int n /\ m < n /\
    speedCommand 49 <> speedCommand 50.
Proof.
  apply (proj1 speedByte_increasing 49 50); lia.
Defined.

Lemma speed_over_range :
  forallb speed_over_check (map Z.of_nat (seq 101 900)) = true.
Proof. vm_compute. reflexivity. Qed.

Lemma speed_under_range :
  forallb speed_under_check (map (fun k => - Z.of_nat k) (seq 1 1000)) = true.
Proof. vm_compute. reflexivity. Qed.

(** X15.  The slider handler does not clamp: a value from 101 to 1000 gives a
    speed above 255, and a value from -1000 to -1 gives a negative speed, sent
    as [SPEED:-...]. *)
Theorem speedByte_not_clamped :
  (forall p, 100 < p <= 1000 -> exists n, speedByte p = Int n /\ 255 < n) /\
  (forall p, -1000 <= p < 0 ->
     exists n, speedByte p = Int n /\ n < 0 /\
               String.prefix "SPEED:-" (speedCommand p) = true).
Proof.
  split; intros p Hp.
  - pose proof speed_over_range as H. rewrite forallb_forall in H.
    assert (Hin : In p (map Z.of_nat (seq 101 900))).
    { rewrite <- (Z2Nat.id p) by lia. apply in_map, in_seq. lia. }
    specialize (H p Hin). unfold speed_over_check in H.
    destruct (speedByte p) as [n| |]; try discriminate.
    exists n. split; [reflexivity|lia].
  - pose proof speed_under_range as H. rewrite forallb_forall in H.
    assert (Hin : In p (map (fun k => - Z.of_nat k) (seq 1 1000))).
    { replace p with (- Z.of_nat (Z.to_nat (- p))) by lia.
      apply (in_map (fun k => - Z.of_nat k)), in_seq. lia. }
    specialize (H p Hin). unfold speed_under_check in H.
    destruct (speedByte p) as [n| |]; try discriminate.
    apply andb_prop in H. destruct H as [H1 H2].
    exists n. repeat split; [lia|exact H2].
Qed.

Lemma speedByte_not_clamped_witness :
  (exists n, speedByte 101 = Int n /\ 255 < n) /\
  (exists n, speedByte (-1) = Int n /\ n < 0 /\
             String.prefix "SPEED:-" (speedCommand (-1)) = true).
Proof.
  split.
  - apply (proj1 speedByte_not_clamped 101). lia.
  - apply (proj2 speedByte_not_clamped (-1)). lia.
Defined.

Lemma dirMap_speedCommand v : dirMap (speedCommand v) = None.
Proof. reflexivity. Qed.

(** X16.  A speed change that reaches the rover sets the direction shown to
    "Stopped", whatever it was and whatever the value. *)
Theorem speed_change_shows_Stopped s w v :
  Active s ->
  currentDirection (fst (speedSlider_input s w v true)) = "Stopped" /\
  commandCount (fst (speedSlider_input s w v true)) = commandCount s + 1.
Proof.
  intros Ha. unfold speedSlider_input.
  assert (Ha' : Active (set_currentSpeed v s)) by exact Ha.
  rewrite (sendCommand_resolved _ w _ Ha'). cbn [fst snd].
  unfold updateDirection. cbn [currentSpeed set_currentSpeed].
  rewrite dirMap_speedCommand. split; reflexivity.
Qed.

Lemma speed_change_shows_Stopped_witness :
  currentDirection
    (fst (speedSlider_input
            (fst (arrowBtn_click (fst connected_at_1000)
                    (snd connected_at_1000) "F" true))
            (snd connected_at_1000) 80 true)) = "Stopped".
Proof.
  apply speed_change_shows_Stopped. split; cbn; congruence.
Defined.

(** ** The display timer *)

Lemma seconds_check_range :
  forallb seconds_check (map Z.of_nat (seq 0 60)) = true.
Proof. vm_compute. reflexivity. Qed.

(** X17.  From the start time on, the timer text is the number of whole
    minutes, a colon, and exactly two digits that read the remaining seconds
    (0 to 59); minutes and seconds together give the whole seconds elapsed. *)
Theorem connectionTimeText_format start now :
  start <= now ->
  let elapsed := (now - start) / 1000 in
  exists ss,
    connectionTimeText start now =
      String.append (Number_toString (Int (elapsed / 60)))
        (String.append ":" ss) /\
    String.length ss = 2%nat /\ all_digits ss = true /\
    0 <= digits_value 0 ss < 60 /\
    60 * (elapsed / 60) + digits_value 0 ss = elapsed.
Proof.
  intros Hle elapsed.
  assert (He : 0 <= elapsed) by (apply Z.div_pos; lia).
  assert (Hrem : Z.rem elapsed 60 = elapsed mod 60) by (apply Z.rem_mod_nonneg; lia).
  pose proof (Z.mod_pos_bound elapsed 60 ltac:(lia)) as Hb.
  pose proof seconds_check_range as H. rewrite forallb_forall in H.
  assert (Hin : In (elapsed mod 60) (map Z.of_nat (seq 0 60))).
  { rewrite <- (Z2Nat.id (elapsed mod 60)) by lia. apply in_map, in_seq. lia. }
  specialize (H _ Hin). unfold seconds_check in H.
  apply andb_prop in H. destruct H as [H H3].
  apply andb_prop in H. destruct H as [H1 H2].
  apply Nat.eqb_eq in H1. apply Z.eqb_eq in H3.
  exists (padStart2 (Number_toString (Int (elapsed mod 60)))).
  unfold connectionTimeText. fold elapsed. rewrite Hrem.
  repeat split; try assumption; try lia.
  rewrite H3. pose proof (Z.div_mod elapsed 60 ltac:(lia)). lia.
Qed.

Lemma connectionTimeText_format_witness :
  exists ss,
    connectionTimeText 1000 126000 =
      String.append (Number_toString (Int ((126000 - 1000) / 1000 / 60)))
        (String.append ":" ss) /\
    String.length ss = 2%nat /\ all_digits ss = true /\
    0 <= digits_value 0 ss < 60 /\
    60 * ((126000 - 1000) / 1000 / 60) + digits_value 0 ss =
      (126000 - 1000) / 1000.
Proof.
  apply (connectionTimeText_format 1000 126000). lia.
Defined.

(** X18.  The timer shows the elapsed time of a session that [connect()]
    started at a non-zero time, and assigns nothing once [disconnect()] or
    the link-loss listener has run, although the start time is still
    recorded. *)
Theorem timer_runs_while_connected s w d c start now r :
  start <> 0 ->
  let s1 := fst (snd (connect s w (handshake_done d c) start)) in
  let w1 := snd (snd (connect s w (handshake_done d c) start)) in
  timer_tick s1 now = Some (connectionTimeText start now) /\
  timer_tick (fst (snd (disconnect s1 w1 r))) now = None /\
  timer_tick (fst (on_gattserverdisconnected s1 w1)) now = None.
Proof.
  intros Hs s1 w1. repeat split.
  - unfold timer_tick. cbn. apply Z.eqb_neq in Hs. now rewrite Hs.
  - rewrite (proj2 (disconnect_cleanup s1 w1 r)). reflexivity.
Qed.

Lemma timer_runs_while_connected_witness :
  timer_tick (fst connected_at_1000) 126000 = Some "2:05".
Proof.
  apply (timer_runs_while_connected constructor initial_world rover ffe1
           1000 126000 true).
  discriminate.
Defined.

(** ** Connecting and disconnecting *)

(** X19.  When [connect()] on a session that is not connected fails after
    the GATT server was reached, the device is kept and its link stays up
    with the session not connected.  A [disconnect()] after that hands
    nothing to the transport, closes the link and forgets the device. *)
Theorem failed_handshake_then_disconnect s w d o now r :
  isConnected s = false ->
  o = getPrimaryService_rejected d \/ o = getCharacteristic_rejected d \/
    (exists c, o = startNotifications_rejected d c) ->
  let '(s1, w1) := snd (connect s w o now) in
  isConnected s1 = false /\ device s1 = Some d /\ gatt_connected w1 = true /\
  let '(s2, w2) := snd (disconnect s1 w1 r) in
  effects w2 =
    effects w ++ [console_error_ConnectionFailed; alert_ConnectionFailed;
                  console_warn_NotConnected; gatt_disconnect] /\
  writeAttempts (effects w2) = writeAttempts (effects w) /\
  gatt_connected w2 = false /\ device s2 = None /\ characteristic s2 = None.
Proof.
  intros Hc Ho.
  assert (E : forall s1 w1,
            isConnected s1 = false -> device s1 = Some d ->
            gatt_connected w1 = true ->
            effects w1 = effects w ++
              [console_error_ConnectionFailed; alert_ConnectionFailed] ->
            isConnected s1 = false /\ device s1 = Some d /\
            gatt_connected w1 = true /\
            let '(s2, w2) := snd (disconnect s1 w1 r) in
            effects w2 =
              effects w ++ [console_error_ConnectionFailed; alert_ConnectionFailed;
                            console_warn_NotConnected; gatt_disconnect] /\
            writeAttempts (effects w2) = writeAttempts (effects w) /\
            gatt_connected w2 = false /\ device s2 = None /\
            characteristic s2 = None).
  { intros s1 w1 H1 H2 H3 H4. repeat split; try assumption.
    unfold disconnect. rewrite H2, H3.
    rewrite (sendCommand_guard s1 w1 "S" r (or_introl H1)). cbn.
    rewrite H4. rewrite <- !app_assoc. cbn.
    repeat split. rewrite writeAttempts_app. cbn. now rewrite app_nil_r. }
  destruct Ho as [->|[->|[c ->]]]; cbn [connect snd];
    apply E; cbn; try assumption; try reflexivity;
    now rewrite <- app_assoc.
Qed.

Lemma failed_handshake_then_disconnect_witness :
  let '(s1, w1) :=
    snd (connect constructor initial_world (getPrimaryService_rejected rover) 5) in
  isConnected s1 = false /\ device s1 = Some rover /\ gatt_connected w1 = true /\
  let '(s2, w2) := snd (disconnect s1 w1 true) in
  effects w2 =
    effects initial_world ++
      [console_error_ConnectionFailed; alert_ConnectionFailed;
       console_warn_NotConnected; gatt_disconnect] /\
  writeAttempts (effects w2) = writeAttempts (effects initial_world) /\
  gatt_connected w2 = false /\ device s2 = None /\ characteristic s2 = None.
Proof.
  apply (failed_handshake_then_disconnect constructor initial_world rover
           (getPrimaryService_rejected rover) 5 true).
  - reflexivity.
  - now left.
Defined.

(** X20.  After [disconnect()], or after the link-loss listener, another
    [disconnect()] changes nothing and has no effect. *)
Theorem disconnect_idempotent s w r r' :
  (let '(s1, w1) := snd (disconnect s w r) in
   disconnect s1 w1 r' = (Normal, (s1, w1))) /\
  (let '(s1, w1) := on_gattserverdisconnected s w in
   disconnect s1 w1 r' = (Normal, (s1, w1))).
Proof.
  split.
  - pose proof (proj2 (disconnect_cleanup s w r)) as H.
    destruct (snd (disconnect s w r)) as [s1 w1]. cbn [fst] in H. subst s1.
    reflexivity.
  - reflexivity.
Qed.

(** ** A base narrower than 100 px *)

(** X21.  With a negative [maxRadius] (a base less than 100 px wide, or
    hidden) every displacement is treated as beyond the radius, even inside
    the deadzone: the knob goes to [maxRadius] times the unit vector of the
    angle, that is to the far side of the centre. *)
Theorem negative_radius_clamps_everything atan2 cos sin s d :
  (maxRadius s <? 0)%float = true ->
  (0 <=? distanceOf d)%float = true ->
  clampToRadius atan2 cos sin s d =
    ((cos (atan2 (snd d) (fst d)) * maxRadius s)%float,
     (sin (atan2 (snd d) (fst d)) * maxRadius s)%float).
Proof.
  intros Hr Hd. apply clampToRadius_outside.
  exact (FloatOrder.ltb_leb_trans _ _ _ Hr Hd).
Qed.

Lemma negative_radius_clamps_everything_witness :
  clampToRadius (fun _ _ => 0%float) (fun _ => 1%float) (fun _ => 0%float)
    (new_RoverController {| left := 0; top := 0; width := 0; height := 0 |})
    (10%float, 0%float) = ((-50)%float, (-0)%float).
Proof.
  rewrite negative_radius_clamps_everything; reflexivity.
Defined.

Lemma reachable_commandDelay_witness :
  commandDelay (fst (run [ev_connect (handshake_done rover ffe1) 1000;
                          ev_arrow_click "F" true; ev_disconnect true]
                       (new_RoverController
                          {| left := 0; top := 0; width := 260; height := 260 |},
                        initial_world))) = 100.
Proof.
  apply (reachable_commandDelay
           (run [ev_connect (handshake_done rover ffe1) 1000;
                 ev_arrow_click "F" true; ev_disconnect true]
              (new_RoverController
                 {| left := 0; top := 0; width := 260; height := 260 |},
               initial_world))).
  apply reachable_run, reach_new.
Defined.

Lemma reachable_count_bounds_witness :
  0 <= commandCount
         (fst (run [ev_arrow_click "F" true; ev_arrow_click "B" false]
                 connected_at_1000)) <=
  Z.of_nat
    (List.length
       (transmitted
          (effects (snd (run [ev_arrow_click "F" true; ev_arrow_click "B" false]
                           connected_at_1000))))).
Proof.
  apply (reachable_count_bounds
           (run [ev_arrow_click "F" true; ev_arrow_click "B" false]
              connected_at_1000)).
  apply reachable_run. unfold connected_at_1000. apply reach_connect.
  exact (reach_new {| left := -130; top := -130; width := 260; height := 260 |}).
Defined.

Lemma run_counts_transmissions_witness :
  commandCount
    (fst (run [ev_arrow_click "F" true; ev_speed 80 false; ev_emergencyStop true]
            connected_at_1000)) -
  commandCount (fst connected_at_1000) =
  Z.of_nat
    (List.length
       (transmitted
          (effects
             (snd (run [ev_arrow_click "F" true; ev_speed 80 false;
                        ev_emergencyStop true] connected_at_1000))))) -
  Z.of_nat (List.length (transmitted (effects (snd connected_at_1000)))).
Proof.
  apply (run_counts_transmissions
           [ev_arrow_click "F" true; ev_speed 80 false; ev_emergencyStop true]
           connected_at_1000).
  reflexivity.
Defined.
